(* ===== verification/_CoqProject ===== *)
-Q . S2P
Prelude.v
Dates.v
Json.v
Store.v
Checkin.v
Plan.v
Enrollment.v
HelpOrder.v
Typing.v
App.v
