(* ===== verification/Prelude.v ===== *)
(** * Gympoint backend: a verification development

    The repository is the REST backend of "Gympoint", a gym management
    application in JavaScript (Express, Sequelize on PostgreSQL, Yup,
    date-fns).  Its business logic is four controllers and one model under
    [src/src/app]; every handler has the same shape: validate [req.body]
    with a Yup schema, look rows up with [findByPk], return early with
    [res.status(..).json({ error })] when one is missing, write with
    [create]/[update]/[destroy], maybe queue a mail, answer with
    [res.json].  The controllers share nothing but the database: one
    handler's writes are what the next one reads.

    ** Files (in dependency order) and what they model
    - [Prelude] (this file): the handler monad [handler S R A]
      ([S -> (reply R + A) * S]: state passing with early return, given as
      stdpp's [MRet]/[MBind] so handlers read [x ← m; k] like the awaits
      of the source), the [reply] type ([Ok] = [res.json], [Fail s msg] =
      [res.status(s).json({ error: msg })], [NoContent] = 204, [Thrown] = an
      awaited promise that rejected), the [readonly] frame predicate, the
      [keeps] (a relation on states kept by every step of a handler), the
      weakest precondition [wp] of a handler with its rules (the
      partial-correctness logic of the error-and-state monad), the [gym]
      hint databases and the shared lemmas on counting and strings.
    - [Dates]: calendar dates, date-fns' [parseISO], [addMonths],
      [subWeeks], [format(d, 'MM/dd/yyyy')] and Yup's [isoParse], modelled
      from the libraries' behaviour (they are not code of the repository).
    - [Json]: request bodies ([gmap string jvalue]) and the Yup schemas
      ([isValid] with Yup's casts).
    - [Store]: the database: one [table] per Sequelize model (rows in a
      [gmap Z _] and the serial sequence of the key), [findByPk] with
      Sequelize's [null] short-circuit and PostgreSQL's [int4] coercion of
      strings, [create] (with [nextval] on an [integer] sequence that
      stops at 2^31-1), [create_at] (a key given in the values),
      [update_row], [destroy_row], [tbl_where] ([findAll]), the mail
      outbox ([Mail.sendMail] is fire-and-forget) with
      [Number.prototype.toFixed(2)] for the mailed price, typed tables
      and the [wp] rules of each Sequelize call.
    - [Checkin] ([CheckinController.js], Module [CheckinController]):
      [index], [store] = [store_check] (the reads) then [store_commit]
      (the insert).
    - [Plan] ([models/Plan.js], Module [PlanModel]; [PlanController.js],
      Module [PlanController]): [calculateTotalPrice]; [index], [store],
      [update], [delete].
    - [Enrollment] ([EnrollmentController.js], Module
      [EnrollmentController]): [index], [store], [update], [delete], with
      [enrollment_row] (price snapshot, [parseISO], [addMonths]) and the
      enrollment mail.
    - [HelpOrder] ([HelpOrderController.js], Module [HelpOrderController]):
      [index], [store], [unanswerdQuestions], [answer] with its unawaited
      [save_unawaited].
    - [Typing]: the column types of the database ([db_typed]: 32-bit
      keys, [integer] columns and sequences, student references, calendar
      dates) and, handler by handler, that every handler keeps them,
      proved by symbolic execution with [wp] ([wp_tac]).
    - [App] (the route table of the spec; [routes.js] is not under
      [src/]): [request] has one constructor per route, [serve] runs the
      route's handler on the database, and [App.reachable] is every state
      a sequence of requests, served one at a time at non-decreasing
      instants, reaches.

    The clock ([new Date()]) is a parameter [now] of the handlers that read
    it (milliseconds since the epoch); route parameters are strings.

    ** What the theorems show
    - The application: [app_invariants] proves that every state [App]
      reaches keeps the rate limiter's quota, the help orders'
      answer/answer-time agreement and the check-in table's key
      discipline.  It reduces to the controllers' invariants through frame
      lemmas ([serve_checkins_frame], [serve_help_orders_frame]): a handler
      of another controller never changes the check-ins or the help
      orders.  The frame lemmas are proved compositionally with [keeps]
      (Prelude): a relation kept by every primitive step is kept by a
      whole handler, so no proof unfolds a handler's branches.
      [app_typed] proves that the column types of [Typing] hold in every
      reachable state; [enrollment_can_end_before_start] composes the
      plan and enrollment controllers into a two-request trace that stores
      an enrollment ending before it starts.
    - Rate limiter: [store_spec] gives [CheckinController.store] on every
      branch; [quota_invariant] proves, by rule induction over
      [reachable] (requests served one at a time in time order, other
      controllers' requests included), that no student ever has more than
      five check-ins in a closed one-week window; [store_refuses_closed_week]
      shows the boundary instant counts; [interleaved_stores_break_quota]
      shows that two requests whose awaits interleave break the quota,
      and [interleaved_other_students_sequential] that the interleaving is
      harmless between different students; [store_lockout_ends] is the
      liveness side: a refused student is accepted again later;
      [store_timed_keeps_quota] shows the code's two clock readings
      ([new Date()] for the count, [createdAt] at the insert) keep the
      quota when requests are served one at a time; [index_decimal_id]
      shows the decimal route parameter of any 32-bit key reaches that
      student.
    - Enrollments: [store_ok] is the refinement of the enrollment rule
      (price = monthly price x duration, end date = start + duration
      months with month-end clamping, row inserted, mail queued);
      [store_ok] and [update_ok] tie the stored student and plan to the
      keys [findByPk] reads from the body, and [update_ok] shows an update
      recomputes everything from the body whatever the old row held;
      [update_requires_all_fields] and [store_unparsable_date_rejects] are
      the two places where valid-looking requests fail; the [delete]
      theorem shows a missing row is an error, never a silent success.
    - Help orders: [answer_fields_consistent] (answer and answer time set
      together, by rule induction), [answered_not_listed],
      [answer_overwrites_answered] (nothing prevents a second answer),
      [answer_reply_without_write] (the unawaited save),
      [unanswered_lists_exactly] (the listing refines the spec's
      contract) and [store_replies_route_id] (the reply echoes the route
      parameter, not the stored order).
    - Plans: [store_accepts_any_numbers] (no bound on duration or price),
      [store_explicit_next_key_blocks_store] (a client-chosen key breaks
      the sequence), [update_changes_named_columns] (a partial update
      changes exactly the named columns).

    ** Bounds and fuel
    - [ordinal_to_date] runs with fuel 11 from January: eleven month
      steps reach December; [ordinal_to_date_enough_fuel] proves that for
      every day of the year fuel 11 gives the date with that ordinal and
      that more fuel gives the same date.
    - [num_digits] runs with fuel 20 in dates (fields far below 10^20)
      and 22 in [toFixed2], enough for every number below 10^22
      ([num_digits_bound]); [toFixed2] covers [|x| < 10^21], beyond which
      JavaScript prints the double's shortest form (not modelled: [None]).
    - PostgreSQL [integer] columns and keys are kept at 32 bits
      ([in_int4]); a [SERIAL] sequence stops at 2^31-1
      ([tbl_create_bounds]); JavaScript dates at 10^8 days either side of
      the epoch ([in_js_range]): [addMonths] beyond it gives an invalid
      date.

    ** Not modelled
    Rounding of IEEE doubles (numbers are exact rationals), time zones and
    daylight saving, time parts and week dates in date strings, Yup's
    [Date.parse] fallback and exponent or hexadecimal numbers, the
    strings ["Infinity"] and one-element arrays that Yup's [number()]
    casts, arrays as values distinct from objects ([JObject] stands for
    both, so [[]] passes [string().required()] here but not in Yup), the
    Bluebird [.map] that [HelpOrderController.index] chains on a
    Sequelize promise (assumed to work), a key in a plan update body, the student CRUD, authentication,
    migrations and mail delivery (none of them is under [src/]).

    Foreign keys from enrollments to plans are not modelled either: the
    migrations that would say whether deleting a plan is refused,
    cascades or leaves an orphan are not under [src/], so [delete] of a
    plan removes only the plan row.  The clock is a parameter: [store]
    reads it once, [CheckinController.store_timed] twice (count, then
    insert); time inside the other handlers is not read by the code
    except [answer]'s [new Date()], which is its [now]. *)

From stdpp Require Export base gmap strings list.
From Stdlib Require Export ZArith Lia.

Declare Scope gym_scope.
Delimit Scope gym_scope with gym.
Open Scope gym_scope.

Create HintDb gym discriminated.
Create Rewrite HintDb gym_rw.

(** ** Replies of a handler

    [Ok v] is [res.json(v)] (status 200); [Fail s msg] is
    [res.status(s).json({ error: msg })]; [NoContent] is
    [res.status(204).json()]; [Thrown why] is an awaited promise that
    rejected (a database or validation error of Sequelize): the handler
    stops without answering. *)
Inductive reply (R : Type) : Type :=
| Ok (payload : R)
| Fail (status : Z) (error : string)
| NoContent
| Thrown (why : string).
Arguments Ok {R} payload.
Arguments Fail {R} status error.
Arguments NoContent {R}.
Arguments Thrown {R} why.

Definition is_ok {R} (r : reply R) : bool :=
  match r with Ok _ => true | _ => false end.

(** ** The handler monad

    A handler reads and writes a state [S] (the database and the mail
    outbox) and either continues with a value of [A] or has already
    answered with a [reply R] ([return res.status(..)...] in the source).
*)
Definition handler (S R A : Type) : Type := S -> (reply R + A) * S.

Section Handler.
Context {S R : Type}.

#[export] Instance handler_ret : MRet (handler S R) :=
  fun A a s => (inr a, s).

#[export] Instance handler_bind : MBind (handler S R) :=
  fun A B k m s =>
    match m s with
    | (inl r, s') => (inl r, s')
    | (inr a, s') => k a s'
    end.

(** [return res....]: answer and stop. *)
Definition respond {A} (r : reply R) : handler S R A := fun s => (inl r, s).

(** Read the state. *)
Definition gets {A} (f : S -> A) : handler S R A := fun s => (inr (f s), s).

(** Change the state (a write to the database or the outbox). *)
Definition modify (f : S -> S) : handler S R unit := fun s => (inr tt, f s).

(** An awaited call that may reject: [None] is the rejection. *)
Definition attempt {A} (why : string) (o : option A) : handler S R A :=
  fun s => match o with Some a => (inr a, s) | None => (inl (Thrown why), s) end.

(** Run a whole handler: every path ends in a reply. *)
Definition run (h : handler S R (reply R)) (s : S) : reply R * S :=
  match h s with
  | (inl r, s') => (r, s')
  | (inr r, s') => (r, s')
  end.

(** A handler built without [modify] leaves the state alone. *)
Inductive readonly : forall {A}, handler S R A -> Prop :=
| ro_ret {A} (a : A) : readonly (mret a)
| ro_respond {A} r : readonly (respond (A:=A) r)
| ro_gets {A} (f : S -> A) : readonly (gets f)
| ro_attempt {A} why (o : option A) : readonly (attempt why o)
| ro_bind {A B} (m : handler S R A) (k : A -> handler S R B) :
    readonly m -> (forall a, readonly (k a)) -> readonly (m ≫= k).
(** A handler whose every step relates the state before to the state
    after by [rel]; with [rel] a preorder, the whole handler does. *)
Inductive keeps (rel : S -> S -> Prop) : forall {A}, handler S R A -> Prop :=
| keeps_step {A} (m : handler S R A) : (forall s, rel s (snd (m s))) -> keeps rel m
| keeps_bind {A B} (m : handler S R A) (k : A -> handler S R B) :
    keeps rel m -> (forall a, keeps rel (k a)) -> keeps rel (m ≫= k).

(** The weakest precondition of a handler for partial correctness with
    early return: [Q a s'] when it continues with [a] in state [s'], [E s']
    when it has answered in state [s']. *)
Definition wp {A} (m : handler S R A) (Q : A -> S -> Prop) (E : S -> Prop) (s : S) : Prop :=
  match m s with (inr a, s') => Q a s' | (inl _, s') => E s' end.
End Handler.

Arguments respond {S R A} r _ /.
Arguments gets {S R A} f _ /.
Arguments modify {S R} f _ /.
Arguments attempt {S R A} why o _ /.

(** Counting the elements that satisfy a boolean test. *)
Definition count {A} (p : A -> bool) (l : list A) : nat :=
  length (filter (fun x => p x = true) l).

(** Unfold [mret] of the handler monad everywhere. *)
Ltac unfold_ret := unfold mret, handler_ret in *.

(** Unfold the monad so that a concrete run computes. *)
Ltac hsimpl :=
  unfold run, mbind, mret, handler_bind, handler_ret in *; cbn in *.

(** Decompose a handler into its steps for [keeps]; [leaf] closes each
    step. *)
Ltac keeps_tac leaf :=
  repeat first
    [ apply keeps_bind; [| intros ?]
    | progress case_match
    | apply keeps_step; intros ?; leaf ].

(** Boolean tests on [Z] and [nat] to propositions, for [lia]. *)
Ltac bool_to_prop :=
  repeat match goal with
  | H : context [andb _ _ = true] |- _ => rewrite andb_true_iff in H
  | H : _ /\ _ |- _ => destruct H
  | H : (_ =? _)%Z = true |- _ => apply Z.eqb_eq in H
  | H : (_ <=? _)%Z = true |- _ => apply Z.leb_le in H
  | H : (_ <? _)%Z = true |- _ => apply Z.ltb_lt in H
  | H : (_ <=? _)%Z = false |- _ => apply Z.leb_gt in H
  | H : (_ <=? _)%nat = true |- _ => apply Nat.leb_le in H
  | H : (_ <=? _)%nat = false |- _ => apply Nat.leb_gt in H
  | |- andb _ _ = true => apply andb_true_iff; split
  | |- (_ =? _)%Z = true => apply Z.eqb_eq
  | |- (_ <=? _)%Z = true => apply Z.leb_le
  end.

(** ** Lemmas of the monad *)

Section HandlerLemmas.
Context {S R : Type}.

Lemma bind_ret {A B} (a : A) (k : A -> handler S R B) s :
  (mret a ≫= k) s = k a s.
Proof. reflexivity. Qed.

Lemma bind_respond {A B} (r : reply R) (k : A -> handler S R B) s :
  ((respond r : handler S R A) ≫= k) s = (inl r, s).
Proof. reflexivity. Qed.

Lemma bind_assoc {A B C} (m : handler S R A) (k : A -> handler S R B)
      (k' : B -> handler S R C) s :
  ((m ≫= k) ≫= k') s = (m ≫= (fun a => k a ≫= k')) s.
Proof. unfold mbind, handler_bind. by destruct (m s) as [[|] ?]. Qed.

(** The frame rule of read-only handlers. *)
Lemma readonly_state {A} (m : handler S R A) s :
  readonly m -> snd (m s) = s.
Proof.
  intros Hro. revert s. induction Hro as [| | | |A B m k _ IHm _ IHk];
    intros s; try reflexivity; try (by destruct o).
  unfold mbind, handler_bind. specialize (IHm s).
  destruct (m s) as [[r|a] s']; simpl in *; subst; [done | apply IHk].
Qed.

Lemma run_readonly (h : handler S R (reply R)) s :
  readonly h -> snd (run h s) = s.
Proof.
  intros Hro. unfold run. pose proof (readonly_state h s Hro) as E.
  destruct (h s) as [[|] ?]; exact E.
Qed.
Lemma keeps_state (rel : S -> S -> Prop) `{!Transitive rel} {A} (m : handler S R A) s :
  keeps rel m -> rel s (snd (m s)).
Proof.
  intros Hk. revert s. induction Hk as [A m Hm|A B m k _ IHm _ IHk]; intros s; [apply Hm|].
  unfold mbind, handler_bind. specialize (IHm s).
  destruct (m s) as [[r|a] s']; simpl in *; [done|]. etrans; [exact IHm | apply IHk].
Qed.

Lemma run_keeps (rel : S -> S -> Prop) `{!Transitive rel} (h : handler S R (reply R)) s :
  keeps rel h -> rel s (snd (run h s)).
Proof.
  intros Hk. unfold run. pose proof (keeps_state rel h s Hk) as E.
  destruct (h s) as [[|] ?]; exact E.
Qed.
(** *** Rules of [wp] *)

Lemma wp_ret {A} (a : A) (Q : A -> S -> Prop) (E : S -> Prop) s : Q a s -> wp (R:=R) (mret a) Q E s.
Proof. done. Qed.

Lemma wp_bind {A B} (m : handler S R A) (k : A -> handler S R B) (Q : B -> S -> Prop) (E : S -> Prop) s :
  wp m (fun a => wp (k a) Q E) E s -> wp (m ≫= k) Q E s.
Proof. unfold wp, mbind, handler_bind. by destruct (m s) as [[|] ?]. Qed.

Lemma wp_respond {A} (r : reply R) (Q : A -> S -> Prop) E s : E s -> wp (respond r) Q E s.
Proof. done. Qed.

Lemma wp_gets {A} (f : S -> A) (Q : A -> S -> Prop) (E : S -> Prop) s : Q (f s) s -> wp (R:=R) (gets f) Q E s.
Proof. done. Qed.

Lemma wp_modify (f : S -> S) (Q : unit -> S -> Prop) (E : S -> Prop) s : Q () (f s) -> wp (R:=R) (modify f) Q E s.
Proof. done. Qed.

Lemma wp_attempt {A} why (o : option A) (Q : A -> S -> Prop) (E : S -> Prop) s :
  (forall a, o = Some a -> Q a s) -> E s -> wp (R:=R) (attempt why o) Q E s.
Proof. unfold wp. destruct o; simpl; auto. Qed.

Lemma wp_mono {A} (m : handler S R A) (Q Q' : A -> S -> Prop) (E E' : S -> Prop) s :
  wp m Q E s -> (forall a s', Q a s' -> Q' a s') -> (forall s', E s' -> E' s') -> wp m Q' E' s.
Proof. unfold wp. destruct (m s) as [[|] ?]; auto. Qed.

(** A whole handler that ends in a state of [P] on every path. *)
Lemma wp_run (h : handler S R (reply R)) (P : S -> Prop) s :
  wp h (fun _ => P) P s -> P (snd (run h s)).
Proof. unfold wp, run. by destruct (h s) as [[|] ?]. Qed.
End HandlerLemmas.

#[export] Hint Constructors readonly : gym.
#[export] Hint Rewrite @bind_ret @bind_respond @bind_assoc : gym_rw.

(** ** Counting *)

Lemma count_app {A} (p : A -> bool) l1 l2 :
  count p (l1 ++ l2) = count p l1 + count p l2.
Proof. unfold count. by rewrite filter_app, length_app. Qed.

Lemma count_mono {A} (p q : A -> bool) l :
  (forall x, x ∈ l -> p x = true -> q x = true) -> count p l <= count q l.
Proof.
  unfold count. induction l as [|x l IH]; intros H; simpl; [lia|].
  rewrite !filter_cons.
  assert (length (filter (fun x => p x = true) l) <= length (filter (fun x => q x = true) l))
    by (apply IH; intros y Hy; apply H; set_solver).
  destruct (decide (p x = true)) as [Ep|Ep].
  - rewrite decide_True by (apply H; [set_solver | done]). simpl. lia.
  - destruct (decide (q x = true)); simpl; lia.
Qed.

#[export] Hint Resolve count_mono : gym.

(** ** Strings

    stdpp makes [String.append] opaque to [simpl]; these are its
    equations. *)

Lemma string_app_cons c (s t : string) : String c s +:+ t = String c (s +:+ t).
Proof. reflexivity. Qed.

Lemma string_app_nil_l (t : string) : "" +:+ t = t.
Proof. reflexivity. Qed.

Lemma string_app_nil_r (t : string) : t +:+ "" = t.
Proof. induction t; rewrite ?string_app_cons, ?string_app_nil_l; congruence. Qed.

Lemma string_app_assoc (a b c : string) : (a +:+ b) +:+ c = a +:+ (b +:+ c).
Proof. induction a; rewrite ?string_app_cons, ?string_app_nil_l; congruence. Qed.

#[export] Hint Rewrite string_app_cons string_app_nil_l string_app_nil_r string_app_assoc : gym_rw.
