(* ===== verification/Dates.v ===== *)
(** * Dates: the date arithmetic the controllers call

    The controllers use date-fns ([parseISO], [addMonths], [subWeeks],
    [format]) and Yup's [date()] schema.  These are libraries, not code of
    the repository, so they are modelled from their documented behaviour:
    - a calendar date is a record [date] (proleptic Gregorian, month
      1..12); a JavaScript [Date] built from a date string is local
      midnight of that date, and an invalid [Date] ("Invalid Date") is
      [None] of [option date];
    - instants ([new Date()], [created_at]) are milliseconds since the
      epoch, a [Z]; [subWeeks(t, 1)] is [t - 7 days], with daylight-saving
      shifts of the local calendar not modelled;
    - the date strings modelled are the date-only forms (no time part):
      [YYYY], [YYYY-MM], [YYYY-MM-DD], [YYYYMMDD], [YYYY-DDD] (ordinal).
      Week dates, six-digit years and time parts are not modelled. *)

From S2P Require Import Prelude.
From Stdlib Require Import Ascii.

#[local] Open Scope string_scope.
#[local] Open Scope Z_scope.

Record date := mkDate { year : Z; month : Z; day : Z }.

#[export] Instance date_eq_dec : EqDecision date.
Proof. solve_decision. Defined.

(** ** Calendar *)

Definition leap (y : Z) : bool :=
  ((y mod 4 =? 0) && negb (y mod 100 =? 0)) || (y mod 400 =? 0).

(** date-fns [getDaysInMonth]; [m] is 1..12. *)
Definition days_in_month (y m : Z) : Z :=
  if m =? 2 then (if leap y then 29 else 28)
  else if (m =? 4) || (m =? 6) || (m =? 9) || (m =? 11) then 30
  else 31.

Definition valid_date (d : date) : bool :=
  (1 <=? month d) && (month d <=? 12) &&
  (1 <=? day d) && (day d <=? days_in_month (year d) (month d)).

(** Months since year 0: [getFullYear() * 12 + getMonth()]. *)
Definition month_index (d : date) : Z := year d * 12 + (month d - 1).

(** Days from 1970-01-01 to the date (the civil-to-days algorithm of
    H. Hinnant); a JavaScript [Date] holds at most 10^8 days either side
    of the epoch, and any operation leaving that range gives an invalid
    [Date]. *)
Definition days_from_civil (d : date) : Z :=
  let y := if month d <=? 2 then year d - 1 else year d in
  let era := y / 400 in
  let yoe := y - era * 400 in
  let mp := (month d + 9) mod 12 in
  let doy := (153 * mp + 2) / 5 + day d - 1 in
  let doe := yoe * 365 + yoe / 4 - yoe / 100 + doy in
  era * 146097 + doe - 719468.

Definition max_days : Z := 100000000.

Definition in_js_range (d : date) : bool := Z.abs (days_from_civil d) <=? max_days.

(** Lexicographic order of dates. *)
Definition date_le (a b : date) : Prop :=
  month_index a < month_index b \/ (month_index a = month_index b /\ day a <= day b).

Definition date_lt (a b : date) : Prop :=
  month_index a < month_index b \/ (month_index a = month_index b /\ day a < day b).

(** ** date-fns [addMonths(date, amount)]

    [if (!amount) return date]; otherwise the last day of the desired
    month is computed ([setMonth(getMonth() + amount + 1, 0)]); when the
    day of month is at least that month's length the result is that last
    day, else the same day of month in the desired month. *)
Definition addMonths_civil (d : date) (amount : Z) : date :=
  if amount =? 0 then d
  else
    let mi := month_index d + amount in
    let y' := mi / 12 in
    let m' := mi mod 12 + 1 in
    let dim := days_in_month y' m' in
    if dim <=? day d then mkDate y' m' dim else mkDate y' m' (day d).

(** On JavaScript dates: an invalid date stays invalid, and a result
    outside the [Date] range is invalid. *)
Definition addMonths (od : option date) (amount : Z) : option date :=
  match od with
  | None => None
  | Some d =>
      let r := addMonths_civil d amount in
      if in_js_range r then Some r else None
  end.

(** ** Instants *)

Definition ms_per_day : Z := 86400000.

(** date-fns [subWeeks(t, amount)] on an instant. *)
Definition subWeeks (t : Z) (amount : Z) : Z := t - amount * 7 * ms_per_day.

(** ** Digits of strings *)

Definition digit (c : ascii) : option Z :=
  let n := Z.of_N (N_of_ascii c) in
  if (48 <=? n) && (n <=? 57) then Some (n - 48) else None.

(** Exactly the digits of [s], read in base 10. *)
Fixpoint digits_value (acc : Z) (s : string) : option Z :=
  match s with
  | EmptyString => Some acc
  | String c s' => match digit c with
                   | Some v => digits_value (acc * 10 + v) s'
                   | None => None
                   end
  end.

(** [n] fixed digits at the head of [s]: [\d{n}] of a regular expression. *)
Fixpoint take_digits (n : nat) (s : string) : option (Z * string) :=
  match n with
  | O => Some (0, s)
  | S n' =>
      match s with
      | String c s' =>
          match digit c, take_digits n' s' with
          | Some v, Some (r, rest) => Some (v * 10 ^ Z.of_nat n' + r, rest)
          | _, _ => None
          end
      | EmptyString => None
      end
  end.

(** An optional ["-"]: the [-?] of a regular expression. *)
Definition skip_dash (s : string) : string :=
  match s with
  | String "-"%char s' => s'
  | _ => s
  end.

(** ** date-fns [parseISO] on date-only strings

    [parseYear] reads four digits; [parseDate] then matches
    [-?(?:(\d{3})|(\d{2})(?:-?(\d{2}))?|)$] on the rest; missing units are
    1; [validateDate] requires the month in 1..12 and the day in the
    month, [validateDayOfYearDate] the ordinal day in the year. *)
Inductive iso_fields := IsoYMD (y m d : Z) | IsoOrdinal (y doy : Z).

Definition parse_date_part (y : Z) (rest : string) : option iso_fields :=
  let r := skip_dash rest in
  match r with
  | EmptyString => if String.eqb rest "" then Some (IsoYMD y 1 1) else None
  | _ =>
      match take_digits 3 r with
      | Some (doy, EmptyString) => Some (IsoOrdinal y doy)
      | _ =>
          match take_digits 2 r with
          | Some (m, EmptyString) => Some (IsoYMD y m 1)
          | Some (m, r2) =>
              match take_digits 2 (skip_dash r2) with
              | Some (d, EmptyString) => Some (IsoYMD y m d)
              | _ => None
              end
          | None => None
          end
      end
  end.

Definition iso_fields_of (s : string) : option iso_fields :=
  match take_digits 4 s with
  | Some (y, rest) => parse_date_part y rest
  | None => None
  end.

Definition days_in_year (y : Z) : Z := if leap y then 366 else 365.

(** The month and day of the [doy]-th day of year [y]. *)
Fixpoint ordinal_to_date (y doy : Z) (m : nat) (fuel : nat) : date :=
  match fuel with
  | O => mkDate y (Z.of_nat m) doy
  | S fuel' =>
      let dim := days_in_month y (Z.of_nat m) in
      if doy <=? dim then mkDate y (Z.of_nat m) doy
      else ordinal_to_date y (doy - dim) (S m) fuel'
  end.

(** [parseISO(s)]: [None] is an invalid [Date]; a string the model does
    not cover (time parts, week dates) is also [None]. *)
Definition parseISO (s : string) : option date :=
  match iso_fields_of s with
  | Some (IsoYMD y m d) =>
      let dt := mkDate y m d in if valid_date dt then Some dt else None
  | Some (IsoOrdinal y doy) =>
      if (1 <=? doy) && (doy <=? days_in_year y) then Some (ordinal_to_date y doy 1 11)
      else None
  | None => None
  end.

(** ** Yup's [isoParse] on date-only strings

    The regular expression [^(\d{4}|[+\-]\d{6})(?:-?(\d{2})(?:-?(\d{2}))?)?]
    (its time part unused), then [new Date(y, (+m || 1) - 1, +d || 1)],
    which accepts any digits: months and days out of range roll over. *)
Definition yup_iso_date_ok (s : string) : bool :=
  match take_digits 4 s with
  | Some (_, EmptyString) => true
  | Some (_, rest) =>
      match take_digits 2 (skip_dash rest) with
      | Some (_, EmptyString) => true
      | Some (_, r2) =>
          match take_digits 2 (skip_dash r2) with
          | Some (_, EmptyString) => true
          | _ => false
          end
      | None => false
      end
  | None => false
  end.

(** ** date-fns [format(date, 'MM/dd/yyyy')] *)

Definition digit_char (v : Z) : ascii := ascii_of_N (Z.to_N (48 + v)).

(** [addLeadingZeros(n, width)] for [n >= 0]. *)
Fixpoint pad (width : nat) (n : Z) : string :=
  match width with
  | O => EmptyString
  | S w => pad w (n / 10) +:+ String (digit_char (n mod 10)) EmptyString
  end.

Fixpoint num_digits (fuel : nat) (n : Z) : nat :=
  match fuel with
  | O => O
  | S f => if n <? 10 then 1 else S (num_digits f (n / 10))
  end.

(** A field printed with at least [w] digits. *)
Definition pad_min (w : nat) (n : Z) : string := pad (Nat.max w (num_digits 20 n)) n.

Definition format_MMddyyyy (d : date) : string :=
  let y := if 0 <? year d then year d else 1 - year d in
  pad_min 2 (month d) +:+ "/" +:+ pad_min 2 (day d) +:+ "/" +:+ pad_min 4 y.

(** The ordinal of a date in its year: the days of the months before it
    and its day.  (A reference for [ordinal_to_date], not code.) *)
Fixpoint days_before (y : Z) (m : nat) : Z :=
  match m with
  | O => 0
  | S m' => days_before y m' + days_in_month y (Z.of_nat (S m'))
  end.

Definition day_of_year (d : date) : Z :=
  days_before (year d) (Z.to_nat (month d - 1)) + day d.

(** ** Calendar lemmas *)

Lemma days_in_month_range y m : 28 <= days_in_month y m <= 31.
Proof. unfold days_in_month. repeat case_match; lia. Qed.

Lemma valid_date_spec d :
  valid_date d = true <->
  1 <= month d <= 12 /\ 1 <= day d <= days_in_month (year d) (month d).
Proof. unfold valid_date. rewrite !andb_true_iff, !Z.leb_le. tauto. Qed.

#[export] Hint Resolve days_in_month_range : gym.

Section AddMonths.
Context (d : date) (n : Z) (Hn : n <> 0).

Lemma addMonths_civil_unfold :
  let mi := month_index d + n in
  addMonths_civil d n =
  mkDate (mi / 12) (mi mod 12 + 1) (Z.min (day d) (days_in_month (mi / 12) (mi mod 12 + 1))).
Proof.
  intros mi. unfold addMonths_civil. rewrite (proj2 (Z.eqb_neq n 0) Hn).
  fold mi. cbn zeta.
  destruct (Z.leb_spec (days_in_month (mi / 12) (mi mod 12 + 1)) (day d));
    f_equal; lia.
Qed.

Lemma addMonths_civil_month_index :
  month_index (addMonths_civil d n) = month_index d + n.
Proof.
  rewrite addMonths_civil_unfold. unfold month_index at 1. cbn.
  pose proof (Z.div_mod (month_index d + n) 12). lia.
Qed.

Lemma addMonths_civil_valid : valid_date d = true -> valid_date (addMonths_civil d n) = true.
Proof.
  rewrite !valid_date_spec, addMonths_civil_unfold. cbn.
  set (mi := month_index d + n).
  pose proof (Z.mod_pos_bound mi 12).
  pose proof (days_in_month_range (mi / 12) (mi mod 12 + 1)). lia.
Qed.
End AddMonths.

Lemma addMonths_civil_zero d : addMonths_civil d 0 = d.
Proof. reflexivity. Qed.

(** Strictly later for a positive amount, strictly earlier for a negative
    one: the order of dates follows the month index first. *)
Lemma addMonths_civil_order d n :
  (0 < n -> date_lt d (addMonths_civil d n)) /\
  (n < 0 -> date_lt (addMonths_civil d n) d).
Proof.
  split; intros Hn; left; rewrite addMonths_civil_month_index by lia; lia.
Qed.

Lemma ordinal_to_date_valid y doy :
  1 <= doy <= days_in_year y -> valid_date (ordinal_to_date y doy 1 11) = true.
Proof.
  unfold days_in_year. intros H. rewrite valid_date_spec.
  unfold ordinal_to_date, days_in_month. simpl.
  destruct (leap y) eqn:L; simpl in *;
    repeat match goal with
    | |- context [if (?a <=? ?b) then _ else _] => destruct (Z.leb_spec a b)
    end; simpl; rewrite ?L; lia.
Qed.

(** A date [parseISO] returns is a real calendar date. *)
Lemma parseISO_valid s d : parseISO s = Some d -> valid_date d = true.
Proof.
  unfold parseISO. destruct (iso_fields_of s) as [[y m dd|y doy]|]; [| |done].
  - destruct (valid_date _) eqn:V; intros; simplify_eq; done.
  - destruct (_ && _) eqn:R; intros; simplify_eq. bool_to_prop.
    apply ordinal_to_date_valid. lia.
Qed.

(** ** Printing lemmas *)

Lemma digit_digit_char v : 0 <= v < 10 -> digit (digit_char v) = Some v.
Proof.
  intros Hv. unfold digit, digit_char.
  rewrite N_ascii_embedding by (apply N2Z.inj_lt; rewrite Z2N.id; simpl; lia).
  rewrite Z2N.id by lia.
  destruct (Z.leb_spec 48 (48 + v)), (Z.leb_spec (48 + v) 57); try lia; simpl.
  f_equal; lia.
Qed.

Lemma num_digits_S f n : num_digits (S f) n = if n <? 10 then 1%nat else S (num_digits f (n / 10)).
Proof. reflexivity. Qed.

Lemma num_digits_pos f n : (1 <= num_digits (S f) n)%nat.
Proof. rewrite num_digits_S. destruct (n <? 10); lia. Qed.

(** With fuel [S f], [num_digits] is the number of digits of every
    [n < 10^(S f)]. *)
Lemma num_digits_bound f n :
  0 <= n < 10 ^ Z.of_nat (S f) -> n < 10 ^ Z.of_nat (num_digits (S f) n).
Proof.
  revert n. induction f as [|f IH]; intros n Hn;
    rewrite num_digits_S; destruct (Z.ltb_spec n 10); try (simpl; lia).
  rewrite Nat2Z.inj_succ, Z.pow_succ_r in Hn by lia.
  specialize (IH (n / 10)). rewrite Nat2Z.inj_succ, Z.pow_succ_r by lia.
  pose proof (Z.mod_pos_bound n 10).
  assert (n / 10 < 10 ^ Z.of_nat (num_digits (S f) (n / 10)))
    by (apply IH; split; [apply Z.div_pos|apply Z.div_lt_upper_bound]; lia).
  rewrite (Z.div_mod n 10) at 1 by lia. lia.
Qed.

(** A printed field of at least one digit starts with a digit. *)
Lemma pad_head_digit w n r c s :
  (0 < w)%nat -> pad w n +:+ r = String c s -> is_Some (digit c).
Proof.
  revert n r. induction w as [|[|w] IH]; intros n r Hw E; [lia| |].
  - simpl in E. rewrite string_app_nil_l, string_app_cons in E. simplify_eq.
    rewrite digit_digit_char; [done|]. apply Z.mod_pos_bound; lia.
  - change (pad (S (S w)) n) with (pad (S w) (n / 10) +:+ String (digit_char (n mod 10)) EmptyString) in E.
    rewrite string_app_assoc in E. eapply IH; [lia|exact E].
Qed.

(** ** Fuel of [ordinal_to_date] *)

(** Each step moves a month's days from the ordinal into the month. *)
Lemma ordinal_to_date_ordinal y doy m f :
  (1 <= m)%nat ->
  year (ordinal_to_date y doy m f) = y /\ (m <= Z.to_nat (month (ordinal_to_date y doy m f)))%nat /\
  days_before y (Z.to_nat (month (ordinal_to_date y doy m f) - 1)) + day (ordinal_to_date y doy m f) =
  days_before y (m - 1) + doy.
Proof.
  revert doy m. induction f as [|f IH]; intros doy m Hm; simpl.
  - rewrite Nat2Z.id. replace (Z.to_nat (Z.of_nat m - 1)) with (m - 1)%nat by lia. lia.
  - destruct (doy <=? days_in_month y (Z.of_nat m)); simpl.
    + replace (Z.to_nat (Z.of_nat m - 1)) with (m - 1)%nat by lia. lia.
    + destruct (IH (doy - days_in_month y (Z.of_nat m)) (S m)) as (Hy & Hle & ->); [lia|].
      split_and!; [done | lia |]. replace (S m - 1)%nat with (S (m - 1)) by lia.
      simpl. replace (S (m - 1)) with m by lia. lia.
Qed.

(** Once the ordinal fits its month, more fuel changes nothing. *)
Lemma ordinal_to_date_more_fuel y doy m f g :
  day (ordinal_to_date y doy m f) <= days_in_month y (month (ordinal_to_date y doy m f)) ->
  (f <= g)%nat -> ordinal_to_date y doy m g = ordinal_to_date y doy m f.
Proof.
  revert doy m g. induction f as [|f IH]; intros doy m g Hfit Hg; simpl in *.
  - destruct g; simpl; [done|]. by destruct (Z.leb_spec doy (days_in_month y (Z.of_nat m))); [|lia].
  - destruct g as [|g]; [lia|]. simpl.
    destruct (doy <=? days_in_month y (Z.of_nat m)); [done|]. apply IH; [done | lia].
Qed.

(** [parseISO]'s ordinal dates ([YYYY-DDD]) need at most eleven month
    steps: for every day of the year, [ordinal_to_date] with fuel 11
    returns a calendar date whose ordinal in the year is exactly that day,
    and any larger fuel returns the same date. *)
Lemma ordinal_to_date_enough_fuel y doy :
  1 <= doy <= days_in_year y ->
  valid_date (ordinal_to_date y doy 1 11) = true /\
  day_of_year (ordinal_to_date y doy 1 11) = doy /\
  forall g, (11 <= g)%nat -> ordinal_to_date y doy 1 g = ordinal_to_date y doy 1 11.
Proof.
  intros Hdoy. pose proof (ordinal_to_date_valid y doy Hdoy) as Hv.
  destruct (ordinal_to_date_ordinal y doy 1 11) as (Hy & _ & Ho); [lia|].
  split_and!; [done | unfold day_of_year; rewrite Hy, Ho; simpl; lia |].
  intros g Hg. apply ordinal_to_date_more_fuel; [|done].
  apply valid_date_spec in Hv as (_ & _ & Hd). by rewrite Hy in Hd.
Qed.


(** [addMonths] of a calendar date is a calendar date. *)
Lemma addMonths_valid od n d :
  (forall d0, od = Some d0 -> valid_date d0 = true) -> addMonths od n = Some d -> valid_date d = true.
Proof.
  unfold addMonths. intros Hv. destruct od as [d0|]; [|done].
  destruct (in_js_range _); intros [= <-].
  destruct (decide (n = 0)) as [->|Hn].
  - rewrite addMonths_civil_zero. by apply Hv.
  - apply addMonths_civil_valid; [done | by apply Hv].
Qed.
