(* ===== verification/Json.v ===== *)
(** * Json: request bodies and the Yup schemas that validate them

    [req.body] is a JSON object parsed by Express: a [gmap string jvalue].
    JavaScript numbers are modelled as exact rationals [Q] (the rounding
    of IEEE doubles is not modelled); arrays and nested objects are one
    constructor [JObject] without contents, since no controller reads
    inside them.

    Yup is a library: its behaviour on the schemas the controllers declare
    is modelled from its documentation and source.  [schema.isValid(body)]
    casts each field before testing it (the schemas are not [strict]):
    - [number()] casts a string by deleting every whitespace character
      ([value.replace(/\s/g, '')]) and applying unary [+]; the decimal
      forms [[+-]digits[.digits]] are modelled (exponents, hexadecimal and
      [Infinity] are not, and are treated as NaN); [integer()] then asks
      [Number.isInteger];
    - [string()] casts any non-null value with [toString()], and
      [required()] on a string asks for a non-empty cast value;
    - [date()] is Yup's [isoParse] (see [Dates.yup_iso_date_ok]);
    - [null] fails every schema (none is [nullable()]), an absent field
      ([undefined]) passes unless [required()]. *)

From S2P Require Import Prelude Dates.
From Stdlib Require Import Ascii QArith.

#[local] Open Scope string_scope.
#[local] Open Scope Z_scope.

Inductive jvalue :=
| JNull
| JBool (b : bool)
| JNum (q : Q)
| JStr (s : string)
| JObject.

Abbreviation body := (gmap string jvalue).

(** ** Yup's cast of a value to a number *)

(** [/\s/] on ASCII: space, tab, line feed, vertical tab, form feed,
    carriage return. *)
Definition is_space (c : ascii) : bool :=
  let n := N_of_ascii c in (n =? 32)%N || ((9 <=? n)%N && (n <=? 13)%N).

Fixpoint strip_spaces (s : string) : string :=
  match s with
  | EmptyString => EmptyString
  | String c s' => if is_space c then strip_spaces s' else String c (strip_spaces s')
  end.

(** The longest run of digits at the head of [s]: its value, its length
    and what follows. *)
Fixpoint scan_digits (s : string) : Z * nat * string :=
  match s with
  | String c s' =>
      match digit c with
      | Some v => let '(x, n, r) := scan_digits s' in (v * 10 ^ Z.of_nat n + x, S n, r)
      | None => (0, O, s)
      end
  | EmptyString => (0, O, EmptyString)
  end.

(** [digits[.digits]] or [.digits], at least one digit, nothing after. *)
Definition parse_unsigned (s : string) : option Q :=
  let '(i, n1, r) := scan_digits s in
  match r with
  | EmptyString => if (n1 =? 0)%nat then None else Some (inject_Z i)
  | String "."%char r' =>
      let '(f, n2, r2) := scan_digits r' in
      match r2 with
      | EmptyString =>
          if (n1 + n2 =? 0)%nat then None
          else Some (Qmake (i * 10 ^ Z.of_nat n2 + f) (Z.to_pos (10 ^ Z.of_nat n2)))
      | _ => None
      end
  | _ => None
  end.

(** Unary [+] on a string with no spaces left. *)
Definition parse_number (s : string) : option Q :=
  match s with
  | String "-"%char s' => option_map Qopp (parse_unsigned s')
  | String "+"%char s' => parse_unsigned s'
  | _ => parse_unsigned s
  end.

(** Yup [number()]'s transform: [None] is [NaN]. *)
Definition cast_number (v : jvalue) : option Q :=
  match v with
  | JNum q => Some q
  | JStr s => let s' := strip_spaces s in if String.eqb s' "" then None else parse_number s'
  | _ => None
  end.

(** [Number.isInteger]. *)
Definition is_integer (q : Q) : bool := Qnum q mod Zpos (Qden q) =? 0.

(** The cast value of [string()] is non-empty: only a string can be
    empty ([String(5)], ["true"], ["[object Object]"] are not). *)
Definition string_present (v : jvalue) : bool :=
  match v with JStr s => negb (String.eqb s "") | _ => true end.

(** JavaScript truthiness: [null], [false], [0] and [""] are falsy. *)
Definition truthy (v : jvalue) : bool :=
  match v with
  | JNull => false
  | JBool b => b
  | JNum q => negb (Qnum q =? 0)
  | JStr s => negb (String.eqb s "")
  | JObject => true
  end.

(** [date()]: a string Yup's [isoParse] accepts; any other value is
    treated as invalid (the [Date.parse] fallback is not modelled). *)
Definition date_value_ok (v : jvalue) : bool :=
  match v with JStr s => yup_iso_date_ok s | _ => false end.

(** ** Schemas *)

Inductive ytype := YNumber | YInteger | YString | YDate.

Record yfield := YField { ykind : ytype; yrequired : bool }.

(** [Yup.object().shape({...})]: the fields it names. *)
Definition yschema := list (string * yfield).

Definition field_ok (f : yfield) (v : option jvalue) : bool :=
  match v with
  | None => negb (yrequired f)
  | Some JNull => false
  | Some v =>
      match ykind f with
      | YNumber => bool_decide (is_Some (cast_number v))
      | YInteger => match cast_number v with Some q => is_integer q | None => false end
      | YString => negb (yrequired f) || string_present v
      | YDate => date_value_ok v
      end
  end.

(** [schema.isValid(body)]. *)
Definition isValid (sch : yschema) (b : body) : bool :=
  forallb (fun '(k, f) => field_ok f (b !! k)) sch.

(** ** Lemmas *)

Lemma isValid_field sch b k f :
  isValid sch b = true -> (k, f) ∈ sch -> field_ok f (b !! k) = true.
Proof.
  unfold isValid. rewrite forallb_forall. intros H Hin.
  apply (H (k, f)). by apply list_elem_of_In.
Qed.

(** A required field is present and not [null]. *)
Lemma field_ok_required f v :
  yrequired f = true -> field_ok f v = true -> exists x, v = Some x /\ x <> JNull.
Proof.
  intros Hr. destruct v as [[]|]; simpl; rewrite ?Hr; try discriminate; eauto.
Qed.

(** An integer field that passes has an integer cast. *)
Lemma field_ok_integer req v x :
  field_ok (YField YInteger req) (Some v) = true -> cast_number v = Some x ->
  is_integer x = true.
Proof. destruct v; simpl; intros H E; rewrite ?E in H; congruence. Qed.

(** Reading back a field printed by [pad]: its value modulo [10^w]. *)
Lemma scan_digits_pad w n r :
  0 <= n ->
  scan_digits (pad w n +:+ r) =
  let '(x, k, r') := scan_digits r in (n mod 10 ^ Z.of_nat w * 10 ^ Z.of_nat k + x, (w + k)%nat, r').
Proof.
  revert n r. induction w as [|w IH]; intros n r Hn; simpl.
  - rewrite string_app_nil_l. destruct (scan_digits r) as [[x k] r']. by rewrite Z.mod_1_r.
  - rewrite string_app_assoc, string_app_cons. rewrite IH by (apply Z.div_pos; lia). simpl.
    rewrite digit_digit_char by (apply Z.mod_pos_bound; lia).
    rewrite string_app_nil_l. destruct (scan_digits r) as [[x k] r']. simpl.
    rewrite (Nat2Z.inj_succ w), (Z.pow_succ_r 10 (Z.of_nat w)), Z.rem_mul_r by lia.
    rewrite Nat.add_succ_r, (Nat2Z.inj_succ k), (Z.pow_succ_r 10 (Z.of_nat k)) by lia.
    f_equal. f_equal. ring.
Qed.

(** Unary [+] on a string that starts with a digit reads it unsigned. *)
Lemma parse_number_digit s :
  (forall c s', s = String c s' -> is_Some (digit c)) -> parse_number s = parse_unsigned s.
Proof.
  intros H. destruct s as [|c s']; [done|]. specialize (H c s' eq_refl).
  destruct c as [[] [] [] [] [] [] [] []]; try reflexivity;
    vm_compute in H; destruct H; discriminate.
Qed.

#[export] Hint Resolve isValid_field field_ok_required : gym.
