(* ===== verification/Store.v ===== *)
(** * Store: the database as the controllers see it through Sequelize

    Each Sequelize model is a PostgreSQL table with a [serial] primary key:
    a [table A] holds its rows in a [gmap Z A] and the last value of the
    key's sequence.  [Model.create] takes [nextval] (the sequence advances
    even when the insert then fails) unless the values name the key
    explicitly, in which case the sequence is left alone.  The sequence of
    a [SERIAL] key is an [integer] one: past 2^31-1 [nextval] fails and
    nothing is inserted ([tbl_create_bounds]).

    The models other than [Plan] ([Student], [Checkin], [Enrollment],
    [HelpOrder]) and the mailer [lib/Mail] are not under [src/]: their
    columns are taken from the spec.  Mails are fire-and-forget
    ([Mail.sendMail] is not awaited): a mail is appended to an outbox and
    its delivery is not modelled.  [created_at]/[updated_at] are modelled
    only where a controller reads them (check-ins).

    [findByPk(v)] follows Sequelize and PostgreSQL: [undefined] and [null]
    give [null] without a query; a number compares numerically with the
    key; a string is coerced by PostgreSQL's [int4] input function, which
    fails the query on bad syntax or a value out of the 32-bit range; a
    boolean or an object fails the query.

    Also here: [toFixed2] ([price.toFixed(2)] of the enrollment mail) with
    its round trip through unary [+]; typed tables ([tbl_typed]) and the
    [wp] rules of the Sequelize calls, used by [Typing]. *)

From S2P Require Import Prelude Dates Json.
From Stdlib Require Import Ascii QArith Qabs.

#[local] Open Scope string_scope.
#[local] Open Scope Z_scope.

(** ** PostgreSQL integers *)

Definition int4_min : Z := -2147483648.
Definition int4_max : Z := 2147483647.

Definition in_int4 (z : Z) : bool := (int4_min <=? z) && (z <=? int4_max).

Fixpoint drop_spaces (s : string) : string :=
  match s with
  | String c s' => if is_space c then drop_spaces s' else s
  | EmptyString => EmptyString
  end.

Fixpoint drop_trailing_spaces (s : string) : string :=
  match s with
  | String c s' =>
      let r := drop_trailing_spaces s' in
      if is_space c && String.eqb r "" then EmptyString else String c r
  | EmptyString => EmptyString
  end.

(** [int4in]: leading and trailing blanks, an optional sign, at least one
    digit, nothing else, in range. *)
Definition pg_int4_text (s : string) : option Z :=
  let s1 := drop_spaces s in
  let '(sign, s2) :=
    match s1 with
    | String "-"%char r => (-1, r)
    | String "+"%char r => (1, r)
    | _ => (1, s1)
    end in
  let '(v, n, rest) := scan_digits s2 in
  if (n =? 0)%nat then None
  else if negb (String.eqb (drop_spaces rest) "") then None
  else if in_int4 (sign * v) then Some (sign * v) else None.

(** A numeric literal assigned to an [integer] column: rounded half away
    from zero, then range-checked. *)
Definition round_half_away (q : Q) : Z :=
  let n := Qnum q in let d := Zpos (Qden q) in
  Z.sgn n * ((2 * Z.abs n + d) / (2 * d)).

(** [Number.prototype.toFixed(2)].  For [|x| < 10^21]: the sign of [x],
    then the integer [n] nearest to [100 |x|] (the larger one on a tie)
    printed with at least one digit before the point and exactly two
    after it; [n / 100] and [n mod 100] are the spec's split of the digit
    string [m] into [a] and [b].  For [|x| >= 10^21] the result is
    [ToString(x)], whose digits depend on the double's shortest decimal
    form, which exact rationals do not have: [None]. *)
Definition toFixed2 (x : Q) : option string :=
  if Qle_bool (inject_Z (10 ^ 21)) (Qabs x) then None
  else
    let n := round_half_away (100 * Qabs x) in
    let sign := if Qle_bool 0 x then "" else "-" in
    Some (sign +:+ pad (num_digits 22 (n / 100)) (n / 100) +:+ "." +:+ pad 2 (n mod 100)).

(** How a client writes an integer key in a URL ([String(k)]): an
    optional minus sign and the decimal digits, without leading zeros. *)
Definition decimal (z : Z) : string :=
  (if z <? 0 then "-" else "") +:+ pad (num_digits 11 (Z.abs z)) (Z.abs z).

(** The value an [integer] column receives from a JSON value. *)
Definition pg_int4 (v : jvalue) : option Z :=
  match v with
  | JNum q => let z := round_half_away q in if in_int4 z then Some z else None
  | JStr s => pg_int4_text s
  | _ => None
  end.

(** The value a [double precision] column receives: numbers as they are,
    strings by [float8in] on the decimal forms (blanks around allowed). *)
Definition pg_float8 (v : jvalue) : option Q :=
  match v with
  | JNum q => Some q
  | JStr s => parse_number (drop_trailing_spaces (drop_spaces s))
  | _ => None
  end.

(** ** Tables *)

Record table (A : Type) := Table { rows : gmap Z A; serial : Z }.
Arguments Table {A} rows serial.
Arguments rows {A} t.
Arguments serial {A} t.

Definition empty_table {A} : table A := Table ∅ 0.

Definition msg_sequence_max : string := "nextval: reached maximum value of sequence".
Definition msg_duplicate_key : string := "duplicate key value violates unique constraint".

Section Table.
Context {A : Type}.
Implicit Types (t : table A) (a : A) (k : Z).

Definition tbl_find k t : option A := rows t !! k.

(** [Model.create(values)] without a key: [nextval] on the key's
    sequence (a [SERIAL] column's sequence is an [integer] one: it fails
    once it has handed out [int4_max], and is not advanced), then the
    insert, which violates the primary key when a row already has that
    key. *)
Definition tbl_create a t : (string + Z) * table A :=
  if int4_max <=? serial t then (inl msg_sequence_max, t)
  else
    let k := serial t + 1 in
    match rows t !! k with
    | Some _ => (inl msg_duplicate_key, Table (rows t) k)
    | None => (inr k, Table (<[k:=a]> (rows t)) k)
    end.

(** [Model.create(values)] with an explicit key. *)
Definition tbl_create_at k a t : option (table A) :=
  match rows t !! k with
  | Some _ => None
  | None => Some (Table (<[k:=a]> (rows t)) (serial t))
  end.

Definition tbl_update k a t : table A := Table (<[k:=a]> (rows t)) (serial t).

Definition tbl_delete k t : table A := Table (delete k (rows t)) (serial t).

(** [Model.findAll({ where })]: the rows satisfying a test, in an order
    the database chooses. *)
Definition tbl_where (p : A -> bool) t : list (Z * A) :=
  filter (fun kv => p kv.2 = true) (map_to_list (rows t)).

(** Every key is at most the sequence's value: [nextval] never meets an
    existing row. *)
Definition tbl_wf t : Prop := forall k a, rows t !! k = Some a -> k <= serial t.

(** The column types of a table: every key an [integer], every row
    satisfying [ok], and the key sequence within its [integer] range. *)
Definition tbl_typed (ok : A -> Prop) t : Prop :=
  map_Forall (fun k a => in_int4 k = true /\ ok a) (rows t) /\ 0 <= serial t <= int4_max.
End Table.

(** ** Rows *)

Record student := Student { student_name : string; student_email : string }.

(** [models/Plan.js]: [title: STRING, duration: INTEGER, price: FLOAT].
    The title keeps the JSON value that was stored. *)
Record plan := Plan { plan_title : jvalue; plan_duration : Z; plan_price : Q }.

Record enrollment := Enrollment {
  enr_student_id : Z; enr_plan_id : Z;
  enr_start_date : date; enr_end_date : date; enr_price : Q }.

Record checkin := Checkin { checkin_student_id : Z; checkin_created_at : Z }.

Record help_order := HelpOrder {
  ho_student_id : Z; ho_question : jvalue;
  ho_answer : option jvalue; ho_answer_at : option Z }.

(** The two mail templates with their contexts. *)
Inductive mail :=
| EnrollmentMail (to_name to_email : string) (plan_title : jvalue) (total_months : Z)
    (start_date end_date : string) (price : option string)
| AnswerMail (to_name to_email : string) (question answer : jvalue).

Record db := DB {
  students : table student;
  plans : table plan;
  enrollments : table enrollment;
  checkins : table checkin;
  help_orders : table help_order;
  outbox : list mail }.

Definition set_plans (t : table plan) (s : db) : db :=
  DB (students s) t (enrollments s) (checkins s) (help_orders s) (outbox s).
Definition set_enrollments (t : table enrollment) (s : db) : db :=
  DB (students s) (plans s) t (checkins s) (help_orders s) (outbox s).
Definition set_checkins (t : table checkin) (s : db) : db :=
  DB (students s) (plans s) (enrollments s) t (help_orders s) (outbox s).
Definition set_help_orders (t : table help_order) (s : db) : db :=
  DB (students s) (plans s) (enrollments s) (checkins s) t (outbox s).

(** [Mail.sendMail(...)]: queued, not awaited. *)
Definition send_mail (m : mail) (s : db) : db :=
  DB (students s) (plans s) (enrollments s) (checkins s) (help_orders s) (outbox s ++ [m]).

(** ** Sequelize calls in the handler monad *)

Section Calls.
Context {R : Type}.

(** How [findByPk(v)] reaches the key column. *)
Inductive pk_query := PkNull | PkKey (k : Z) | PkNoMatch | PkError.

Definition pk_query_of (v : option jvalue) : pk_query :=
  match v with
  | None | Some JNull => PkNull
  | Some (JNum q) => if is_integer q then PkKey (Qnum q / Zpos (Qden q)) else PkNoMatch
  | Some (JStr s) => match pg_int4_text s with Some k => PkKey k | None => PkError end
  | Some _ => PkError
  end.

Definition findByPk {A} (sel : db -> table A) (v : option jvalue)
  : handler db R (option (Z * A)) :=
  match pk_query_of v with
  | PkNull | PkNoMatch => mret None
  | PkKey k => gets (fun s => (fun a => (k, a)) <$> tbl_find k (sel s))
  | PkError => respond (Thrown "invalid input syntax for type integer")
  end.

(** [await Model.create(values)]: a failed insert rejects. *)
Definition create {A} (sel : db -> table A) (upd : table A -> db -> db) (a : A)
  : handler db R (Z * A) :=
  fun s => match tbl_create a (sel s) with
           | (inr k, t) => (inr (k, a), upd t s)
           | (inl why, t) => (inl (Thrown why), upd t s)
           end.

(** [Model.create(values)] where [values] names the key. *)
Definition create_at {A} (sel : db -> table A) (upd : table A -> db -> db) (k : Z) (a : A)
: handler db R (Z * A) :=
fun s => match tbl_create_at k a (sel s) with
         | Some t => (inr (k, a), upd t s)
         | None => (inl (Thrown msg_duplicate_key), s)
         end.

(** [await instance.update(values)] / [save()] of the row [k]. *)
Definition update_row {A} (sel : db -> table A) (upd : table A -> db -> db) (k : Z) (a : A)
: handler db R unit :=
modify (fun s => upd (tbl_update k a (sel s)) s).

(** [await Model.destroy({ where: { id } })]. *)
Definition destroy_row {A} (sel : db -> table A) (upd : table A -> db -> db) (k : Z)
: handler db R unit :=
modify (fun s => upd (tbl_delete k (sel s)) s).

(** A route parameter is a string. *)
Definition param (id : string) : option jvalue := Some (JStr id).
End Calls.

(** ** Lemmas on tables *)

Section TableLemmas.
Context {A : Type}.
Implicit Types (t : table A) (a : A) (k : Z) (p q : A -> bool).

Lemma tbl_wf_fresh t : tbl_wf t -> rows t !! (serial t + 1) = None.
Proof. intros Hwf. destruct (rows t !! _) eqn:E; [apply Hwf in E; lia | done]. Qed.

Lemma tbl_create_wf a t :
  tbl_wf t -> serial t < int4_max ->
  exists k, tbl_create a t = (inr k, Table (<[k:=a]> (rows t)) k) /\
                   k = serial t + 1 /\ rows t !! k = None /\
                   tbl_wf (Table (<[k:=a]> (rows t)) k).
Proof.
  intros Hwf Hmax. unfold tbl_create.
  destruct (Z.leb_spec int4_max (serial t)); [lia|].
  destruct (rows t !! (serial t + 1)) as [b|] eqn:E.
  { apply Hwf in E. lia. }
  eexists; split_and!; [done..|].
  intros k' b. simpl. rewrite lookup_insert. case_decide; [lia|].
  intros Hk. apply Hwf in Hk. simpl. lia.
Qed.

Lemma tbl_where_elem p t k a :
  (k, a) ∈ tbl_where p t <-> rows t !! k = Some a /\ p a = true.
Proof. unfold tbl_where. rewrite list_elem_of_filter, elem_of_map_to_list. tauto. Qed.

Lemma tbl_where_insert p t k a s :
  rows t !! k = None ->
  length (tbl_where p (Table (<[k:=a]> (rows t)) s)) =
  (length (tbl_where p t) + (if p a then 1 else 0))%nat.
Proof.
  intros Hk. unfold tbl_where. simpl.
  rewrite (map_to_list_insert _ _ _ Hk), filter_cons.
  cbn [snd]. destruct (p a); case_decide; simpl; try congruence; lia.
Qed.

Lemma tbl_where_mono p q t :
  (forall k a, rows t !! k = Some a -> p a = true -> q a = true) ->
  (length (tbl_where p t) <= length (tbl_where q t))%nat.
Proof.
  intros H. apply (count_mono (fun kv => p kv.2) (fun kv => q kv.2)).
  intros [k a] Hin. apply elem_of_map_to_list in Hin. eauto.
Qed.
(** An insert of a row a query does not select leaves the query's
    answer as long as it was, whatever [create] did. *)
Lemma tbl_create_where_other p a t :
  p a = false -> length (tbl_where p (snd (tbl_create a t))) = length (tbl_where p t).
Proof.
  intros Hp. unfold tbl_create. destruct (int4_max <=? serial t); [done|].
  destruct (rows t !! (serial t + 1)) eqn:E; [done|]. simpl.
  rewrite tbl_where_insert by done. rewrite Hp. lia.
Qed.
End TableLemmas.

#[export] Hint Resolve tbl_where_mono : gym.

(** A route parameter reaches the key through [int4in]. *)
Lemma findByPk_param {R A} (sel : db -> table A) id s :
  findByPk (R:=R) sel (param id) s =
  match pg_int4_text id with
  | Some k => (inr ((fun a => (k, a)) <$> tbl_find k (sel s)), s)
  | None => (inl (Thrown "invalid input syntax for type integer"), s)
  end.
Proof. unfold findByPk, param. simpl. by destruct (pg_int4_text id). Qed.

Lemma findByPk_readonly {R A} (sel : db -> table A) v : readonly (R:=R) (findByPk sel v).
Proof. unfold findByPk. destruct (pk_query_of v); constructor. Qed.

#[export] Hint Resolve findByPk_readonly : gym.

(** An insert into a well-formed table succeeds under the next key. *)
Lemma create_wf {R A} (sel : db -> table A) upd (a : A) s :
  tbl_wf (sel s) -> serial (sel s) < int4_max ->
  create (R:=R) sel upd a s =
  (inr (serial (sel s) + 1, a),
   upd (Table (<[serial (sel s) + 1 := a]> (rows (sel s))) (serial (sel s) + 1)) s).
Proof.
  intros Hwf Hmax. unfold create.
  destruct (tbl_create_wf a _ Hwf Hmax) as (k & -> & -> & _). done.
Qed.

Lemma tbl_where_le_size {A} (p : A -> bool) (t : table A) :
  (length (tbl_where p t) <= size (rows t))%nat.
Proof.
  unfold tbl_where. rewrite <- length_map_to_list. apply length_filter.
Qed.

Lemma round_half_away_Z z : round_half_away (inject_Z z) = z.
Proof.
  unfold round_half_away. simpl.
  replace ((2 * Z.abs z + 1) / (2 * 1)) with (Z.abs z).
  - rewrite Z.mul_comm. apply Z.abs_sgn.
  - apply (Z.div_unique _ _ _ 1); lia.
Qed.

(** What [int4in] accepts is in the [integer] range. *)
Lemma pg_int4_text_range s k : pg_int4_text s = Some k -> in_int4 k = true.
Proof.
  unfold pg_int4_text. repeat case_match; intros; simplify_eq; done.
Qed.

Lemma pg_int4_range v k : pg_int4 v = Some k -> in_int4 k = true.
Proof.
  destruct v; simpl; try discriminate; [|apply pg_int4_text_range].
  case_match; intros; simplify_eq; done.
Qed.

(** [int4in] on a string that starts with a digit: no blanks to skip
    and no sign. *)
Lemma pg_int4_text_digit c s :
  is_Some (digit c) ->
  pg_int4_text (String c s) =
  let '(v, n, rest) := scan_digits (String c s) in
  if (n =? 0)%nat then None
  else if negb (String.eqb (drop_spaces rest) "") then None
  else if in_int4 (1 * v) then Some (1 * v) else None.
Proof.
  intros H. destruct c as [[] [] [] [] [] [] [] []]; try reflexivity;
    vm_compute in H; destruct H; discriminate.
Qed.

(** [int4in] reads back the decimal form of every 32-bit integer. *)
Lemma pg_int4_text_decimal z : in_int4 z = true -> pg_int4_text (decimal z) = Some z.
Proof.
  intros Hz. set (k := num_digits 11 (Z.abs z)).
  assert (Hk : Z.abs z < 10 ^ Z.of_nat k).
  { apply num_digits_bound. change (10 ^ Z.of_nat 11) with 100000000000.
    unfold in_int4, int4_min, int4_max in Hz. bool_to_prop. lia. }
  assert (Hscan : scan_digits (pad k (Z.abs z)) = (Z.abs z, k, "")).
  { rewrite <- (string_app_nil_r (pad k (Z.abs z))), scan_digits_pad by lia. simpl.
    rewrite Z.mod_small by lia. f_equal. f_equal; lia. }
  assert (Hk1 : (k =? 0)%nat = false) by (apply Nat.eqb_neq; pose proof (num_digits_pos 10 (Z.abs z)); lia).
  unfold decimal. destruct (Z.ltb_spec z 0).
  - rewrite string_app_cons, string_app_nil_l. unfold pg_int4_text. cbn [drop_spaces].
    replace (is_space "-"%char) with false by reflexivity.
    cbv iota beta. fold k. rewrite Hscan, Hk1. simpl.
    replace (-1 * Z.abs z) with z by lia. by rewrite Hz.
  - rewrite string_app_nil_l. fold k.
    destruct (pad k (Z.abs z)) as [|c s'] eqn:E.
    + simpl in Hscan. injection Hscan as _ Hk0. rewrite <- Hk0 in Hk1. discriminate.
    + rewrite pg_int4_text_digit.
      * rewrite Hscan, Hk1. simpl. replace (1 * Z.abs z) with z by lia. by rewrite Hz.
      * eapply (pad_head_digit k (Z.abs z) ""); [|by rewrite string_app_nil_r].
        apply Nat.eqb_neq in Hk1. lia.
Qed.

Lemma pg_int4_Z z : in_int4 z = true -> pg_int4 (JNum (inject_Z z)) = Some z.
Proof. intros H. simpl. by rewrite round_half_away_Z, H. Qed.

Lemma is_integer_Z z : is_integer (inject_Z z) = true.
Proof. unfold is_integer. simpl. by rewrite Z.mod_1_r. Qed.

#[export] Hint Rewrite round_half_away_Z is_integer_Z : gym_rw.

(** Writing back a table unchanged is no write. *)
Lemma set_checkins_same s : set_checkins (checkins s) s = s.
Proof. by destruct s. Qed.
Lemma set_plans_same s : set_plans (plans s) s = s.
Proof. by destruct s. Qed.
Lemma set_enrollments_same s : set_enrollments (enrollments s) s = s.
Proof. by destruct s. Qed.
Lemma set_help_orders_same s : set_help_orders (help_orders s) s = s.
Proof. by destruct s. Qed.

#[export] Hint Rewrite set_checkins_same set_plans_same set_enrollments_same
  set_help_orders_same : gym_rw.

Lemma tbl_create_spent {A} (a : A) t :
  int4_max <= serial t -> tbl_create a t = (inl msg_sequence_max, t).
Proof. intros H. unfold tbl_create. by destruct (Z.leb_spec int4_max (serial t)); [|lia]. Qed.

(** A [create] once the sequence is spent rejects and writes nothing. *)
Lemma create_spent {R A} (sel : db -> table A) upd (a : A) s :
  int4_max <= serial (sel s) ->
  create (R:=R) sel upd a s = (inl (Thrown msg_sequence_max), upd (sel s) s).
Proof. intros H. unfold create, tbl_create. by destruct (Z.leb_spec int4_max (serial (sel s))); [|lia]. Qed.

(** What an [await Model.create] can do: insert under a fresh key, or
    reject. *)
Lemma create_inv {R A} (sel : db -> table A) upd a s o s' :
  create (R:=R) sel upd a s = (o, s') ->
  (forall k a', o = inr (k, a') -> a' = a /\ rows (sel s) !! k = None /\
     s' = upd (Table (<[k:=a]> (rows (sel s))) k) s) /\
  (forall r, o = inl r -> is_ok r = false).
Proof.
  unfold create, tbl_create.
  destruct (int4_max <=? serial (sel s)); [intros [= <- <-]; split; intros; simplify_eq; done|].
  destruct (rows (sel s) !! (serial (sel s) + 1)) eqn:E; intros [= <- <-];
    split; intros; simplify_eq; done.
Qed.

(** What a [findByPk] can do: read only, answer with a row of the table,
    or reject. *)
Lemma findByPk_inv {R A} (sel : db -> table A) v s o s' :
  findByPk (R:=R) sel v s = (o, s') ->
  s' = s /\
  (forall k a, o = inr (Some (k, a)) -> tbl_find k (sel s) = Some a /\ pk_query_of v = PkKey k) /\
  (forall r, o = inl r -> is_ok r = false).
Proof.
  unfold findByPk. destruct (pk_query_of v) as [|k| |] eqn:Q; simpl; intros [= <- <-];
    (split; [done|]); split; intros; simplify_eq/=; try done.
  destruct (tbl_find k (sel s)) eqn:E; simplify_eq/=; auto.
Qed.

(** Case analysis on a [findByPk] inside a run that answered [Ok]. *)
Ltac find_cases F :=
  lazymatch goal with
  | H : context [findByPk ?sel ?v ?s] |- _ =>
      let o := fresh "o" in let s1 := fresh "s" in
      destruct (findByPk sel v s) as [o s1] eqn:F;
      apply findByPk_inv in F as (-> & F & ?);
      destruct o as [?|[[? ?]|]]; simpl in H;
      [ exfalso; simplify_eq; match goal with Hr : forall r, _ -> is_ok r = false |- _ =>
          specialize (Hr _ eq_refl); done end
      | let Hf := fresh "Hf" in
        destruct (F _ _ eq_refl) as [Hf ?]; clear F; rename Hf into F
      | try discriminate ]
  end.

(** The shape of the [delete] handlers: find by the route's id, answer
    [code] when absent, else destroy the row and answer 204. *)
Lemma find_destroy_run {A R} (sel : db -> table A) upd code msg id s :
  run (R:=R) (found ← findByPk sel (param id);
              match found with
              | None => respond (Fail code msg)
              | Some (k, _) => destroy_row sel upd k;; mret NoContent
              end) s =
  match pg_int4_text id with
  | None => (Thrown "invalid input syntax for type integer", s)
  | Some k => match tbl_find k (sel s) with
              | None => (Fail code msg, s)
              | Some _ => (NoContent, upd (tbl_delete k (sel s)) s)
              end
  end.
Proof.
  unfold run, mbind, handler_bind. rewrite findByPk_param.
  destruct (pg_int4_text id) as [k|]; [|done]. simpl. by destruct (tbl_find k (sel s)).
Qed.

(** A [SERIAL] key stays a PostgreSQL [integer]: from a sequence in
    [[0, int4_max]], [tbl_create] leaves it in that range, hands out only
    keys in the [integer] range, and once the sequence is spent fails with
    [nextval]'s error and changes nothing. *)
Lemma tbl_create_bounds {A} (a : A) t :
  0 <= serial t <= int4_max ->
  0 <= serial (snd (tbl_create a t)) <= int4_max /\
  (forall k, fst (tbl_create a t) = inr k -> in_int4 k = true /\ k = serial (snd (tbl_create a t))) /\
  (serial t = int4_max -> tbl_create a t = (inl msg_sequence_max, t)).
Proof.
  intros Hs. unfold tbl_create, in_int4, int4_min.
  destruct (Z.leb_spec int4_max (serial t)).
  - simpl. split_and!; [lia | lia | intros ? [=] | done].
  - destruct (rows t !! (serial t + 1)); simpl; split_and!; try lia;
      intros k [= <-]; split; [bool_to_prop; lia | done].
Qed.


(** ** Typed tables *)

Section Typed.
Context {A : Type} (ok : A -> Prop).

Lemma tbl_typed_lookup t k a :
  tbl_typed ok t -> rows t !! k = Some a -> in_int4 k = true /\ ok a.
Proof. intros [H _] Hk. exact (H k a Hk). Qed.

Lemma tbl_typed_create a t : tbl_typed ok t -> ok a -> tbl_typed ok (snd (tbl_create a t)).
Proof.
  intros [Hr Hs] Ha. destruct (tbl_create_bounds a t Hs) as (Hs' & Hk & _).
  split; [|exact Hs']. unfold tbl_create in *.
  destruct (int4_max <=? serial t); [done|].
  destruct (rows t !! (serial t + 1)); simpl in *; [done|].
  apply map_Forall_insert_2; [|done]. split; [|done]. by apply (Hk _ eq_refl).
Qed.

Lemma tbl_typed_create_at k a t t' :
  tbl_typed ok t -> in_int4 k = true -> ok a -> tbl_create_at k a t = Some t' -> tbl_typed ok t'.
Proof.
  intros [Hr Hs] Hk Ha. unfold tbl_create_at. destruct (rows t !! k); intros [= <-].
  split; [apply map_Forall_insert_2|]; done.
Qed.

Lemma tbl_typed_update k a t :
  tbl_typed ok t -> in_int4 k = true -> ok a -> tbl_typed ok (tbl_update k a t).
Proof. intros [Hr Hs] Hk Ha. split; [apply map_Forall_insert_2|]; done. Qed.

Lemma tbl_typed_delete k t : tbl_typed ok t -> tbl_typed ok (tbl_delete k t).
Proof. intros [Hr Hs]. split; [apply map_Forall_delete|]; done. Qed.
End Typed.

Lemma tbl_typed_mono {A} (ok ok' : A -> Prop) t :
  (forall a, ok a -> ok' a) -> tbl_typed ok t -> tbl_typed ok' t.
Proof. intros H [Hr Hs]. split; [|done]. eapply map_Forall_impl; [exact Hr|]. naive_solver. Qed.

(** ** Weakest preconditions of the Sequelize calls *)

Section WpCalls.
Context {R : Type}.

Lemma wp_findByPk {A} (sel : db -> table A) v (Q : option (Z * A) -> db -> Prop) (E : db -> Prop) s :
  E s -> (forall o, (forall k a, o = Some (k, a) -> rows (sel s) !! k = Some a) -> Q o s) ->
  wp (R:=R) (findByPk sel v) Q E s.
Proof.
  intros HE HQ. unfold findByPk, wp. destruct (pk_query_of v) as [|k0| |]; simpl; try done; apply HQ; try done.
  intros k a. unfold tbl_find. destruct (rows (sel s) !! k0) eqn:Hk0; simpl; intros; simplify_eq; done.
Qed.

Lemma wp_create {A} (sel : db -> table A) upd (a : A) (Q : Z * A -> db -> Prop) (E : db -> Prop) s :
  (forall k, fst (tbl_create a (sel s)) = inr k -> Q (k, a) (upd (snd (tbl_create a (sel s))) s)) ->
  E (upd (snd (tbl_create a (sel s))) s) ->
  wp (R:=R) (create sel upd a) Q E s.
Proof. unfold wp, create. destruct (tbl_create a (sel s)) as [[]]; simpl; auto. Qed.

Lemma wp_create_at {A} (sel : db -> table A) upd k (a : A) (Q : Z * A -> db -> Prop) (E : db -> Prop) s :
  (forall t, tbl_create_at k a (sel s) = Some t -> Q (k, a) (upd t s)) -> E s ->
  wp (R:=R) (create_at sel upd k a) Q E s.
Proof. unfold wp, create_at. destruct (tbl_create_at k a (sel s)); auto. Qed.

Lemma wp_update_row {A} (sel : db -> table A) upd k (a : A) (Q : unit -> db -> Prop) (E : db -> Prop) s :
  Q () (upd (tbl_update k a (sel s)) s) -> wp (R:=R) (update_row sel upd k a) Q E s.
Proof. done. Qed.

Lemma wp_destroy_row {A} (sel : db -> table A) upd k (Q : unit -> db -> Prop) (E : db -> Prop) s :
  Q () (upd (tbl_delete k (sel s)) s) -> wp (R:=R) (destroy_row sel upd k) Q E s.
Proof. done. Qed.
End WpCalls.
