(* ===== verification/Checkin.v ===== *)
(** * Checkin: [src/src/app/controllers/CheckinController.js]

    [index] lists a student's check-ins; [store] is the rate limiter: it
    counts the student's check-ins created at or after [subWeeks(now, 1)]
    and refuses a sixth.  [store] is written as the composition of
    [store_check] (the two reads: the student, the recent check-ins) and
    [store_commit] (the insert), the point where another request can run
    between the awaits.

    Theorems: the full behaviour of [store] on every branch
    ([store_spec]); [index] returns exactly the student's rows and writes
    nothing; the quota invariant — in every state reached by requests
    served in time order, no student has more than five check-ins in any
    closed one-week window — by rule induction on [reachable]; and the
    two places where the code does not meet the spec: the boundary at
    exactly one week is inclusive, and two interleaved requests exceed the
    quota.  [store_timed] reads the clock twice, as the code does (the
    count before the awaits, [createdAt] at the insert), and keeps the
    quota too; [decimal] is how a client writes a key in the URL. *)

From S2P Require Import Prelude Dates Json Store.

#[local] Open Scope string_scope.
#[local] Open Scope Z_scope.

Module CheckinController.

Definition of_student (sid : Z) (c : checkin) : bool := checkin_student_id c =? sid.

(** [where: { student_id: id, created_at: { [Op.gte]: oneWeekAgoDate } }] *)
Definition created_since (sid since : Z) (c : checkin) : bool :=
  of_student sid c && (since <=? checkin_created_at c).

Definition msg_not_found : string := "Student not found".
Definition msg_limit : string :=
  "Student does not able to check in more than 5 times in the week".

(** [async index(req, res)] *)
Definition index (id : string) : handler db (list (Z * checkin)) (reply (list (Z * checkin))) :=
  student ← findByPk students (param id);
  match student with
  | None => respond (Fail 401 msg_not_found)
  | Some (sid, _) =>
      found ← gets (fun s => tbl_where (of_student sid) (checkins s));
      mret (Ok found)
  end.

(** [async store(req, res)] up to the insert. *)
Definition store_check (id : string) (now : Z) : handler db (Z * checkin) Z :=
  student ← findByPk students (param id);
  match student with
  | None => respond (Fail 401 msg_not_found)
  | Some (sid, _) =>
      let oneWeekAgoDate := subWeeks now 1 in
      recent ← gets (fun s => tbl_where (created_since sid oneWeekAgoDate) (checkins s));
      if (5 <=? length recent)%nat then respond (Fail 401 msg_limit)
      else mret sid
  end.

(** [await Checkin.create({ student_id: id })]: [created_at] is the
    server's clock. *)
Definition store_commit (now : Z) (sid : Z) : handler db (Z * checkin) (reply (Z * checkin)) :=
  checkin ← create checkins set_checkins (Checkin sid now);
  mret (Ok checkin).

Definition store (id : string) (now : Z) : handler db (Z * checkin) (reply (Z * checkin)) :=
  store_check id now ≫= store_commit now.

(** [store] with the two readings of the clock the code makes:
    [subWeeks(new Date(), 1)] at [now], before the awaits, and the
    [createdAt] Sequelize stamps when [Checkin.create] runs, at [later],
    after them.  [store id now] is the case where both readings agree. *)
Definition store_timed (id : string) (now later : Z)
  : handler db (Z * checkin) (reply (Z * checkin)) :=
  store_check id now ≫= store_commit later.

(** Two [store] requests for [id1] then [id2] whose awaits interleave:
    both reads run before either insert. *)
Definition stores_interleaved (id1 id2 : string) (now : Z) (s : db) : db :=
  let '(o1, s1) := store_check id1 now s in
  let '(o2, s2) := store_check id2 now s1 in
  let s3 := match o1 with inr sid => snd (store_commit now sid s2) | inl _ => s2 end in
  match o2 with inr sid => snd (store_commit now sid s3) | inl _ => s3 end.

(** A student with four check-ins, at instants 0 to 30. *)
Definition sample_db : db :=
  DB (Table {[1 := Student "Ana" "ana@example.com"]} 1) empty_table empty_table
     (Table (list_to_map [(1, Checkin 1 0); (2, Checkin 1 10); (3, Checkin 1 20);
                          (4, Checkin 1 30)]) 4) empty_table [].

(** ** The quota *)

Definition week_ms : Z := 7 * ms_per_day.

(** A check-in of [sid] in the closed window [[a, a + 1 week]]. *)
Definition in_window (sid a : Z) (c : checkin) : bool :=
  of_student sid c && (a <=? checkin_created_at c) && (checkin_created_at c <=? a + week_ms).

Definition quota_ok (t : table checkin) : Prop :=
  forall sid a, (length (tbl_where (in_window sid a) t) <= 5)%nat.

Definition stamped_upto (now : Z) (t : table checkin) : Prop :=
  forall k c, rows t !! k = Some c -> checkin_created_at c <= now.

(** Requests served one after the other at non-decreasing times;
    [reach_other] is any request of another controller, which leaves
    the check-in table alone. *)
Inductive reachable : Z -> db -> Prop :=
| reach_init t s : rows (checkins s) = ∅ -> serial (checkins s) = 0 -> reachable t s
| reach_index t s id now : reachable t s -> t <= now -> reachable now (snd (run (index id) s))
| reach_store t s id now : reachable t s -> t <= now -> reachable now (snd (run (store id now) s))
| reach_other t s s' now : reachable t s -> t <= now -> checkins s' = checkins s -> reachable now s'.

(** ** Behaviour of the handlers *)

(** [store] on every branch, as a function of the state. *)
Lemma store_run id now s :
  tbl_wf (checkins s) ->
  run (store id now) s =
  match pg_int4_text id with
  | None => (Thrown "invalid input syntax for type integer", s)
  | Some sid =>
      match tbl_find sid (students s) with
      | None => (Fail 401 msg_not_found, s)
      | Some _ =>
          if (5 <=? length (tbl_where (created_since sid (subWeeks now 1)) (checkins s)))%nat
          then (Fail 401 msg_limit, s)
          else if serial (checkins s) <? int4_max then
            let k := serial (checkins s) + 1 in
            (Ok (k, Checkin sid now),
             set_checkins (Table (<[k:=Checkin sid now]> (rows (checkins s))) k) s)
          else (Thrown msg_sequence_max, s)
      end
  end.
Proof.
  intros Hwf. unfold store, store_check, store_commit, run, mbind, handler_bind.
  rewrite findByPk_param. destruct (pg_int4_text id) as [sid|]; [|done].
  destruct (tbl_find sid (students s)); [|done]. cbn -[Nat.leb].
  destruct (5 <=? length (tbl_where (created_since sid (subWeeks now 1)) (checkins s)))%nat;
    [done|]. cbn. destruct (Z.ltb_spec (serial (checkins s)) int4_max).
  - by rewrite create_wf.
  - rewrite create_spent by done. by rewrite set_checkins_same.
Qed.

(** The reads of [store], as a function of the state; they write
    nothing. *)
Lemma store_check_run id now s :
  store_check id now s =
  (match pg_int4_text id with
   | None => inl (Thrown "invalid input syntax for type integer")
   | Some sid =>
       match tbl_find sid (students s) with
       | None => inl (Fail 401 msg_not_found)
       | Some _ =>
           if (5 <=? length (tbl_where (created_since sid (subWeeks now 1)) (checkins s)))%nat
           then inl (Fail 401 msg_limit) else inr sid
       end
   end, s).
Proof.
  unfold store_check, mbind, handler_bind. rewrite findByPk_param.
  destruct (pg_int4_text id) as [sid|]; [|done].
  destruct (tbl_find sid (students s)); [|done]. cbn -[Nat.leb].
  by destruct (5 <=? _)%nat.
Qed.

(** The state after [store]: the insert of [store_commit] when the reads
    let it through. *)
Lemma store_timed_state id now later s :
  snd (run (store_timed id now later) s) =
  match fst (store_check id now s) with
  | inr sid => set_checkins (snd (tbl_create (Checkin sid later) (checkins s))) s
  | inl _ => s
  end.
Proof.
  unfold run, store_timed, mbind, handler_bind. rewrite store_check_run.
  destruct (pg_int4_text id) as [sid|]; [|done].
  destruct (tbl_find sid (students s)); [|done].
  destruct (5 <=? _)%nat; [done|]. cbn.
  unfold store_commit, create, mbind, handler_bind. by destruct (tbl_create _ _) as [[]].
Qed.

Lemma store_state id now s :
  snd (run (store id now) s) =
  match fst (store_check id now s) with
  | inr sid => set_checkins (snd (tbl_create (Checkin sid now) (checkins s))) s
  | inl _ => s
  end.
Proof. exact (store_timed_state id now now s). Qed.

(** The insert of [store], as a write to the check-in table only. *)
Lemma store_commit_state now sid s :
  snd (store_commit now sid s) = set_checkins (snd (tbl_create (Checkin sid now) (checkins s))) s.
Proof. unfold store_commit, mbind, handler_bind, create. by destruct (tbl_create _ _) as [[]]. Qed.

(** C3. [store] on every branch: an unparsable id makes the query
    reject; an unknown student gets 401 "Student not found"; a student
    with five or more check-ins created at or after one week before
    [now] gets 401 and nothing is written; otherwise the check-in
    [(student, now)] is inserted under the next key of the sequence and
    returned. *)
Theorem store_spec id now s :
  tbl_wf (checkins s) ->
  run (store id now) s =
  match pg_int4_text id with
  | None => (Thrown "invalid input syntax for type integer", s)
  | Some sid =>
      match tbl_find sid (students s) with
      | None => (Fail 401 msg_not_found, s)
      | Some _ =>
          if (5 <=? length (tbl_where (created_since sid (subWeeks now 1)) (checkins s)))%nat
          then (Fail 401 msg_limit, s)
          else if serial (checkins s) <? int4_max then
            let k := serial (checkins s) + 1 in
            (Ok (k, Checkin sid now),
             set_checkins (Table (<[k:=Checkin sid now]> (rows (checkins s))) k) s)
          else (Thrown msg_sequence_max, s)
      end
  end.
Proof. apply store_run. Qed.

Lemma sample_db_wf : tbl_wf (checkins sample_db).
Proof. intros k c. vm_compute. repeat case_match; intros; simplify_eq; lia. Qed.

(** [store_spec] at a student with four recent check-ins: the fifth is
    accepted under key 5, a sixth at the same instant is refused. *)
Lemma store_spec_witness :
  tbl_wf (checkins sample_db) /\
  fst (run (store "1" 100) sample_db) = Ok (5, Checkin 1 100) /\
  fst (run (store "1" 100) (snd (run (store "1" 100) sample_db))) = Fail 401 msg_limit.
Proof.
  split_and!; [exact sample_db_wf | rewrite (store_spec _ _ _ sample_db_wf); vm_compute; reflexivity |].
  vm_compute. reflexivity.
Defined.

(** C7. Five check-ins of the student created in the closed week
  [[now - 1 week, now]] make [store] refuse and write nothing: a
  check-in created exactly one week before [now] counts ([Op.gte]). *)
Theorem store_refuses_closed_week id (now : Z) s (sid : Z) :
tbl_wf (checkins s) -> pg_int4_text id = Some sid -> is_Some (tbl_find sid (students s)) ->
(5 <= length (tbl_where (fun c => of_student sid c && (now - week_ms <=? checkin_created_at c)%Z
                                  && (checkin_created_at c <=? now)%Z) (checkins s)))%nat ->
run (store id now) s = (Fail 401 msg_limit, s).
Proof.
intros Hwf Hid [st Hst] H5. rewrite (store_run id now s Hwf), Hid, Hst.
enough (Hle : (5 <= length (tbl_where (created_since sid (subWeeks now 1)) (checkins s)))%nat)
  by (apply Nat.leb_le in Hle; by rewrite Hle).
etrans; [exact H5|]. apply tbl_where_mono. intros k c _ Hc.
unfold created_since, subWeeks, week_ms in *. bool_to_prop; [done | lia].
Qed.

(** [store_refuses_closed_week] at [week_ms]: the sample's check-ins at
  0, 10, 20, 30 and 100, the one at 0 exactly one week before. *)
Lemma store_refuses_closed_week_witness :
let s1 := snd (run (store "1" 100) sample_db) in
run (store "1" week_ms) s1 = (Fail 401 msg_limit, s1).
Proof.
intros s1. apply (store_refuses_closed_week _ _ _ 1).
- intros k c. vm_compute. repeat case_match; intros; simplify_eq; lia.
- reflexivity.
- vm_compute. by eexists.
- vm_compute. lia.
Defined.

(** C14. The route parameter a client builds from a student's key
    reaches that student: for every 32-bit key, [index] on its decimal
    form answers exactly the check-ins of that student when the student
    exists, and 401 otherwise, writing nothing. *)
Theorem index_decimal_id k s :
  in_int4 k = true ->
  run (index (decimal k)) s =
  match tbl_find k (students s) with
  | Some _ => (Ok (tbl_where (of_student k) (checkins s)), s)
  | None => (Fail 401 msg_not_found, s)
  end.
Proof.
  intros Hk. unfold index, run, mbind, handler_bind.
  rewrite findByPk_param, pg_int4_text_decimal by done. simpl.
  by destruct (tbl_find k (students s)).
Qed.

(** [index_decimal_id] at key 1 of the sample and at the key [-1], whose
    decimal form ["-1"] the route passes as it is. *)
Lemma index_decimal_id_witness :
  decimal 1 = "1" /\ decimal (-1) = "-1" /\
  run (index (decimal 1)) sample_db = (Ok (tbl_where (of_student 1) (checkins sample_db)), sample_db) /\
  run (index (decimal (-1))) sample_db = (Fail 401 msg_not_found, sample_db).
Proof.
  split_and!; [reflexivity | reflexivity | |].
  - rewrite (index_decimal_id 1 sample_db) by reflexivity. reflexivity.
  - rewrite (index_decimal_id (-1) sample_db) by reflexivity. reflexivity.
Defined.

(** [index] writes nothing. *)
Lemma index_readonly id : readonly (index id).
Proof.
  unfold index. constructor; [auto with gym|].
  intros [[sid ?]|]; repeat constructor.
Qed.

(** What [store] does to the check-in table: nothing, or the insert of
    [(sid, now)] under the next key when fewer than five check-ins of
    [sid] are at or after one week before [now]. *)
Lemma store_checkins id now s :
  tbl_wf (checkins s) ->
  checkins (snd (run (store id now) s)) = checkins s \/
  exists sid,
    (length (tbl_where (created_since sid (subWeeks now 1)) (checkins s)) < 5)%nat /\
    serial (checkins s) < int4_max /\
    checkins (snd (run (store id now) s)) =
    Table (<[serial (checkins s) + 1 := Checkin sid now]> (rows (checkins s)))
          (serial (checkins s) + 1).
Proof.
  intros Hwf. rewrite (store_run id now s Hwf).
  destruct (pg_int4_text id) as [sid|]; [|by left].
  destruct (tbl_find sid (students s)); [|by left].
  destruct (5 <=? _)%nat eqn:E; [by left|].
  destruct (Z.ltb_spec (serial (checkins s)) int4_max); [|by left].
  bool_to_prop. right. eauto.
Qed.

(** The insert of a check-in accepted at [now] keeps every window
    within the quota: the old check-ins in a window that holds [now]
    were all counted by the query. *)
Lemma quota_insert_at t sid now later :
  tbl_wf t -> quota_ok t -> stamped_upto now t -> now <= later ->
  (length (tbl_where (created_since sid (subWeeks now 1)) t) < 5)%nat ->
  quota_ok (Table (<[serial t + 1 := Checkin sid later]> (rows t)) (serial t + 1)).
Proof.
  intros Hwf Hq Hst Hlater Hlt sid' a.
  pose proof (tbl_wf_fresh t Hwf) as Hfresh.
  rewrite tbl_where_insert by exact Hfresh.
  destruct (in_window sid' a (Checkin sid later)) eqn:W; [|specialize (Hq sid' a); lia].
  enough (length (tbl_where (in_window sid' a) t) <=
          length (tbl_where (created_since sid (subWeeks now 1)) t))%nat by lia.
  apply tbl_where_mono. intros k' c Hk Hin. apply Hst in Hk.
  unfold in_window, created_since, of_student, subWeeks, week_ms in *. simpl in *.
  bool_to_prop; lia.
Qed.

Lemma quota_insert t sid now :
  tbl_wf t -> quota_ok t -> stamped_upto now t ->
  (length (tbl_where (created_since sid (subWeeks now 1)) t) < 5)%nat ->
  quota_ok (Table (<[serial t + 1 := Checkin sid now]> (rows t)) (serial t + 1)).
Proof. intros ????. apply (quota_insert_at t sid now now); [done..|lia|done]. Qed.

Lemma reachable_inv t s :
  reachable t s ->
  tbl_wf (checkins s) /\ quota_ok (checkins s) /\ stamped_upto t (checkins s).
Proof.
  induction 1 as [t s Hr Hs|t s id now _ IH Hle|t s id now _ IH Hle|t s s' now _ IH Hle Heq].
  - split_and!.
    + intros k c. by rewrite Hr, lookup_empty.
    + intros sid a. unfold tbl_where. rewrite Hr, map_to_list_empty. simpl. lia.
    + intros k c. by rewrite Hr, lookup_empty.
  - rewrite (run_readonly _ _ (index_readonly id)).
    destruct IH as (? & ? & Hst). split_and!; [done..|].
    intros k c Hk. specialize (Hst k c Hk). lia.
  - destruct IH as (Hwf & Hq & Hst).
    assert (Hst' : stamped_upto now (checkins s)) by (intros k c Hk; specialize (Hst k c Hk); lia).
    destruct (store_checkins id now s Hwf) as [-> | (sid & Hlt & Hmax & ->)]; [done|].
    destruct (tbl_create_wf (Checkin sid now) _ Hwf Hmax) as (k & _ & -> & _ & Hwf').
    split_and!; [done | by apply quota_insert |].
    intros k' c. simpl. rewrite lookup_insert. case_decide; [intros [= <-]; simpl; lia|].
    apply Hst'.
  - rewrite Heq. destruct IH as (? & ? & Hst). split_and!; [done..|].
    intros k c Hk. specialize (Hst k c Hk). lia.
Qed.

(** Every table of check-ins has a latest creation instant. *)
Lemma stamps_bounded (t : table checkin) : exists M, stamped_upto M t.
Proof.
  destruct t as [m n]. unfold stamped_upto. simpl.
  induction m as [|i x m _ [M HM]] using map_ind.
  - exists 0. intros k c. by rewrite lookup_empty.
  - exists (Z.max M (checkin_created_at x)). intros k c. rewrite lookup_insert.
    case_decide; [intros [= <-]; lia|]. intros Hk. specialize (HM k c Hk). lia.
Qed.

(** No check-in is counted once [now] is more than a week after all of
    them. *)
Lemma created_since_none sid now M t :
  stamped_upto M t -> M < subWeeks now 1 ->
  tbl_where (created_since sid (subWeeks now 1)) t = [].
Proof.
  intros HM Hlt. destruct (tbl_where _ t) as [|[k c] l] eqn:E; [done|].
  assert (Hin : (k, c) ∈ tbl_where (created_since sid (subWeeks now 1)) t) by (rewrite E; set_solver).
  apply tbl_where_elem in Hin as [Hk Hc]. apply HM in Hk.
  unfold created_since in Hc. bool_to_prop. lia.
Qed.

(** C12. The limit never locks a known student out for good: from any
    state where the key sequence is not spent, there is an instant after
    which every [store] of that student is accepted and inserts
    [(student, now)] under the next key, however many check-ins the
    student already has. *)
Theorem store_lockout_ends id sid s :
  tbl_wf (checkins s) -> serial (checkins s) < int4_max ->
  pg_int4_text id = Some sid -> is_Some (tbl_find sid (students s)) ->
  exists T, forall now, T <= now ->
    run (store id now) s =
    (Ok (serial (checkins s) + 1, Checkin sid now),
     set_checkins (Table (<[serial (checkins s) + 1 := Checkin sid now]> (rows (checkins s)))
                         (serial (checkins s) + 1)) s).
Proof.
  intros Hwf Hmax Hid [st Hst]. destruct (stamps_bounded (checkins s)) as [M HM].
  exists (M + week_ms + 1). intros now Hnow.
  rewrite (store_run id now s Hwf), Hid, Hst.
  rewrite (created_since_none sid now M) by (done || (unfold subWeeks, week_ms in *; lia)).
  simpl. by destruct (Z.ltb_spec (serial (checkins s)) int4_max); [|lia].
Qed.

(** [store_lockout_ends] on the sample: after a fifth check-in at 100 the
    student is refused at 100, and accepted again from the instant the
    theorem gives. *)
Lemma store_lockout_ends_witness :
  let s1 := snd (run (store "1" 100) sample_db) in
  fst (run (store "1" 100) s1) = Fail 401 msg_limit /\
  exists T, forall now, T <= now ->
    run (store "1" now) s1 =
    (Ok (serial (checkins s1) + 1, Checkin 1 now),
     set_checkins (Table (<[serial (checkins s1) + 1 := Checkin 1 now]> (rows (checkins s1)))
                         (serial (checkins s1) + 1)) s1).
Proof.
  intros s1. split; [vm_compute; reflexivity|].
  apply store_lockout_ends.
  - intros k c. vm_compute. repeat case_match; intros; simplify_eq; lia.
  - vm_compute. reflexivity.
  - reflexivity.
  - vm_compute. by eexists.
Defined.

(** C10. The two clock readings do not matter when requests are served
    one at a time: from a table within the quota whose check-ins are all
    stamped at or before [now], a [store] that counts from [now] and
    stamps its check-in at any [later >= now] keeps every closed week
    within the quota, and all stamps at or before [later]. *)
Theorem store_timed_keeps_quota id now later s :
  tbl_wf (checkins s) -> quota_ok (checkins s) -> stamped_upto now (checkins s) -> now <= later ->
  tbl_wf (checkins (snd (run (store_timed id now later) s))) /\
  quota_ok (checkins (snd (run (store_timed id now later) s))) /\
  stamped_upto later (checkins (snd (run (store_timed id now later) s))).
Proof.
  intros Hwf Hq Hst Hle.
  assert (Hst' : stamped_upto later (checkins s)) by (intros k c Hk; specialize (Hst k c Hk); lia).
  rewrite store_timed_state, store_check_run.
  destruct (pg_int4_text id) as [sid|]; [|done]. destruct (tbl_find sid (students s)); [|done].
  destruct (5 <=? _)%nat eqn:E; [done|]. simpl. bool_to_prop.
  destruct (Z.ltb_spec (serial (checkins s)) int4_max) as [Hmax|Hmax];
    [|by rewrite tbl_create_spent].
  destruct (tbl_create_wf (Checkin sid later) _ Hwf Hmax) as (k & -> & -> & _ & Hwf').
  split_and!; [done | apply (quota_insert_at _ _ now); done || lia |].
  intros k' c. simpl. rewrite lookup_insert. case_decide; [intros [= <-]; simpl; lia|]. apply Hst'.
Qed.

(** [store_timed_keeps_quota] on the sample: the fifth check-in counted
    at 100 and stamped at 150. *)
Lemma store_timed_keeps_quota_witness :
  fst (run (store_timed "1" 100 150) sample_db) = Ok (5, Checkin 1 150) /\
  quota_ok (checkins (snd (run (store_timed "1" 100 150) sample_db))).
Proof.
  split; [vm_compute; reflexivity|].
  apply (store_timed_keeps_quota "1" 100 150 sample_db); [exact sample_db_wf | | | lia].
  - intros sid a. etrans; [apply tbl_where_le_size|]. vm_compute. lia.
  - intros k c. vm_compute. repeat case_match; intros; simplify_eq; lia.
Defined.

(** C2. The rate limiter's guarantee: in every state reached by
    requests served in time order (any interleaving of check-in requests
    with requests to the other controllers), no student has more than
    five check-ins created within any closed window of one week. *)
Theorem quota_invariant t s :
  reachable t s -> quota_ok (checkins s).
Proof. intros H. by apply reachable_inv in H as (_ & ? & _). Qed.

(** C6. The check is not atomic with the insert: two requests of the
    same student whose reads both run before either insert are both
    accepted, and the table then holds six check-ins in one week,
    although it respected the quota before. *)
Theorem interleaved_stores_break_quota :
  exists s, tbl_wf (checkins s) /\ quota_ok (checkins s) /\
    ~ quota_ok (checkins (stores_interleaved "1" "1" week_ms s)).
Proof.
  exists sample_db. split_and!; [exact sample_db_wf | |].
  - intros sid a. etrans; [apply tbl_where_le_size|]. vm_compute. lia.
  - intros Hq. specialize (Hq 1 0). vm_compute in Hq. lia.
Qed.

(** C13. The race needs a single student: two check-in requests of
    different students whose awaits interleave leave exactly the database
    that serving them one after the other leaves. *)
Theorem interleaved_other_students_sequential id1 id2 now s :
  (forall sid1 sid2, pg_int4_text id1 = Some sid1 -> pg_int4_text id2 = Some sid2 -> sid1 <> sid2) ->
  stores_interleaved id1 id2 now s = snd (run (store id2 now) (snd (run (store id1 now) s))).
Proof.
  intros Hne. unfold stores_interleaved. rewrite !store_state, !store_check_run.
  cbn [fst snd].
  destruct (pg_int4_text id1) as [sid1|] eqn:E1;
    [destruct (tbl_find sid1 (students s)); [destruct (5 <=? _)%nat|]|];
    cbn -[Nat.leb tbl_create]; rewrite ?store_commit_state; cbn [students checkins set_checkins];
    destruct (pg_int4_text id2) as [sid2|] eqn:E2; try done;
    try (rewrite tbl_create_where_other;
         [|unfold created_since, of_student; simpl;
           rewrite (proj2 (Z.eqb_neq sid1 sid2)); [done | by apply Hne]]);
    repeat case_match; rewrite ?store_commit_state; done.
Qed.

(** [interleaved_other_students_sequential] on the sample with students
    1 and 2. *)
Lemma interleaved_other_students_sequential_witness :
  stores_interleaved "1" "2" 100 sample_db =
  snd (run (store "2" 100) (snd (run (store "1" 100) sample_db))).
Proof.
  apply interleaved_other_students_sequential.
  intros sid1 sid2 H1 H2. vm_compute in H1, H2. congruence.
Defined.

(** [quota_invariant] after two accepted check-ins served in order. *)
Lemma quota_invariant_witness :
  let s0 := set_checkins empty_table sample_db in
  let s2 := snd (run (store "1" 7) (snd (run (store "1" 5) s0))) in
  reachable 7 s2 /\ quota_ok (checkins s2).
Proof.
  intros s0 s2.
  assert (R : reachable 7 s2).
  { apply (reach_store 5); [|lia]. apply (reach_store 0); [|lia].
    by apply reach_init. }
  split; [exact R | exact (quota_invariant 7 s2 R)].
Defined.

End CheckinController.
