(* ===== verification/Plan.v ===== *)
(** * Plan: [src/src/app/models/Plan.js] and
    [src/src/app/controllers/PlanController.js]

    [PlanModel.calculateTotalPrice] is the model's method; the controller
    has [index], [store], [update], [delete].  [store] passes the whole
    request body to [Plan.create], so a body naming a truthy [id] inserts
    under that key without advancing the key's sequence, while a falsy one
    ([null], [0], [""], [false]) is sent as [DEFAULT] by Sequelize's insert
    and draws from the sequence; [update] passes it to
    [plan.update], which changes exactly the columns the body names (a key
    in an update body is not modelled).  A column receives a JSON value
    through PostgreSQL's input functions ([Store.pg_int4],
    [Store.pg_float8]); a value they refuse rejects the query.

    Theorems: the partial update, the schema admits plans the spec rules
    out (duration zero or negative, negative price), and a client-chosen
    key makes a later [store] fail. *)

From S2P Require Import Prelude Dates Json Store.
From Stdlib Require Import QArith.

#[local] Open Scope string_scope.
#[local] Open Scope Z_scope.

Module PlanModel.

(** [calculateTotalPrice() { return this.price * this.duration; }] *)
Definition calculateTotalPrice (p : plan) : Q := (plan_price p * inject_Z (plan_duration p))%Q.

End PlanModel.

Module PlanController.

Definition msg_validation : string := "Validation fails".
Definition msg_not_found : string := "Plan not found".

(** The schema of [store]. *)
Definition store_schema : yschema :=
  [("title", YField YString true); ("duration", YField YInteger true);
   ("price", YField YNumber true)].

(** The schema of [update]: the same fields, none required. *)
Definition update_schema : yschema :=
  [("title", YField YString false); ("duration", YField YInteger false);
   ("price", YField YNumber false)].

(** A [character varying] column takes strings, numbers and booleans
    (by an I/O conversion cast); anything else rejects the query. *)
Definition pg_text (v : jvalue) : option jvalue :=
  match v with JObject | JNull => None | _ => Some v end.

(** The row [Plan.create(req.body)] inserts. *)
Definition plan_of_body (b : body) : option plan :=
  title ← b !! "title" ≫= pg_text;
  duration ← b !! "duration" ≫= pg_int4;
  price ← b !! "price" ≫= pg_float8;
  Some (Plan title duration price).

(** The row after [plan.update(req.body)]: the columns the body names. *)
Definition patch_plan (p : plan) (b : body) : option plan :=
  title ← from_option pg_text (Some (plan_title p)) (b !! "title");
  duration ← from_option pg_int4 (Some (plan_duration p)) (b !! "duration");
  price ← from_option pg_float8 (Some (plan_price p)) (b !! "price");
  Some (Plan title duration price).

Definition msg_bad_input : string := "invalid input syntax".

(** [async index(req, res)] *)
Definition index : handler db (list (Z * plan)) (reply (list (Z * plan))) :=
  found ← gets (fun s => tbl_where (fun _ => true) (plans s));
  mret (Ok found).

(** [async store(req, res)] *)
Definition store (b : body) : handler db (Z * plan) (reply (Z * plan)) :=
  if negb (isValid store_schema b) then respond (Fail 400 msg_validation)
  else
    p ← attempt msg_bad_input (plan_of_body b);
    created ←
      match b !! "id" with
      | Some v =>
          if truthy v then k ← attempt msg_bad_input (pg_int4 v); create_at plans set_plans k p
          else create plans set_plans p
      | None => create plans set_plans p
      end;
    mret (Ok created).

(** [async update(req, res)] *)
Definition update (id : string) (b : body) : handler db (Z * plan) (reply (Z * plan)) :=
  if negb (isValid update_schema b) then respond (Fail 400 msg_validation)
  else
    found ← findByPk plans (param id);
    match found with
    | None => respond (Fail 400 msg_not_found)
    | Some (k, p) =>
        p' ← attempt msg_bad_input (patch_plan p b);
        update_row plans set_plans k p';;
        mret (Ok (k, p'))
    end.

(** [async delete(req, res)] *)
Definition delete (id : string) : handler db unit (reply unit) :=
  found ← findByPk plans (param id);
  match found with
  | None => respond (Fail 400 msg_not_found)
  | Some (k, _) => destroy_row plans set_plans k;; mret NoContent
  end.

(** A body [{ title, duration, price }] with numbers. *)
Definition plan_body (title : string) (duration : Z) (price : Q) : body :=
  <["title" := JStr title]> (<["duration" := JNum (inject_Z duration)]>
    (<["price" := JNum price]> ∅)).

(** ** Theorems *)

Lemma plan_body_valid title d q :
  title <> "" -> isValid store_schema (plan_body title d q) = true.
Proof.
  intros Ht. unfold isValid, plan_body. simpl. simplify_map_eq.
  rewrite is_integer_Z. simpl. destruct (String.eqb_spec title ""); done.
Qed.

(** C23. The schema and the table put no bound on a plan's numbers:
    [store] accepts every duration in the [integer] range, zero and
    negative ones included, and every price, negative ones included, and
    inserts the plan under the next key.  The spec requires a positive
    duration and a non-negative price. *)
Theorem store_accepts_any_numbers title d q s :
  tbl_wf (plans s) -> serial (plans s) < int4_max -> title <> "" -> in_int4 d = true ->
  run (store (plan_body title d q)) s =
  (Ok (serial (plans s) + 1, Plan (JStr title) d q),
   set_plans (Table (<[serial (plans s) + 1 := Plan (JStr title) d q]> (rows (plans s)))
                    (serial (plans s) + 1)) s).
Proof.
  intros Hwf Hmax Ht Hd. unfold store. rewrite plan_body_valid by done.
  assert (E : plan_of_body (plan_body title d q) = Some (Plan (JStr title) d q)).
  { unfold plan_of_body, plan_body. simplify_map_eq. simpl. by rewrite round_half_away_Z, Hd. }
  unfold run, mbind, handler_bind. simpl. rewrite E. simpl.
  replace (plan_body title d q !! "id") with (@None jvalue)
    by (unfold plan_body; by simplify_map_eq).
  by rewrite create_wf.
Qed.

(** [store_accepts_any_numbers] at a plan of duration 0 and price -1. *)
Lemma store_accepts_any_numbers_witness :
  let s := DB empty_table empty_table empty_table empty_table empty_table [] in
  fst (run (store (plan_body "Free" 0 (-1))) s) = Ok (1, Plan (JStr "Free") 0 (-1)).
Proof.
  intros s. rewrite store_accepts_any_numbers; [reflexivity | | reflexivity | done | reflexivity].
  intros k a. simpl. by rewrite lookup_empty.
Defined.

(** What an accepted [store] with a key in the body did: the row went in
    under that key and the sequence did not move. *)
Lemma store_explicit_key b s k p s1 :
  run (store b) s = (Ok (k, p), s1) -> from_option truthy false (b !! "id") = true ->
  in_int4 k = true /\ rows (plans s) !! k = None /\
  s1 = set_plans (Table (<[k:=p]> (rows (plans s))) (serial (plans s))) s.
Proof.
  intros H Hid. unfold store, run, mbind, handler_bind in H.
  destruct (isValid store_schema b); simpl in H; [|discriminate].
  destruct (plan_of_body b) as [p0|]; simpl in H; [|discriminate].
  destruct (b !! "id") as [v|]; simpl in Hid; [|discriminate]. rewrite Hid in H.
  destruct (pg_int4 v) as [k0|] eqn:Hk0; cbn -[pg_int4] in H; [|discriminate].
  apply pg_int4_range in Hk0.
  unfold create_at, tbl_create_at in H.
  destruct (rows (plans s) !! k0) eqn:E; cbn in H; [discriminate|].
  by simplify_eq.
Qed.

(** C24. A body whose [id] is truthy and is the next key of the sequence
    is inserted under it and the sequence does not move, so the next [store] without a key
    draws that same key and fails on the primary key, whatever its body. *)
Theorem store_explicit_next_key_blocks_store b b' s s1 p p' :
  run (store b) s = (Ok (serial (plans s) + 1, p), s1) ->
  from_option truthy false (b !! "id") = true ->
  isValid store_schema b' = true -> b' !! "id" = None -> plan_of_body b' = Some p' ->
  fst (run (store b') s1) = Thrown msg_duplicate_key.
Proof.
  intros H Hid Vb' Hid' Hp'.
  destruct (store_explicit_key _ _ _ _ _ H Hid) as (Hk & _ & ->).
  unfold store, run, mbind, handler_bind. rewrite Vb'. simpl. rewrite Hp', Hid'.
  unfold create, tbl_create. simpl. unfold in_int4 in Hk. bool_to_prop.
  destruct (Z.leb_spec int4_max (serial (plans s))); [lia|]. by rewrite lookup_insert_eq.
Qed.

(** [store_explicit_next_key_blocks_store] on an empty table: a body with
    [id: 1], then a body without a key. *)
Lemma store_explicit_next_key_blocks_store_witness :
  let s := DB empty_table empty_table empty_table empty_table empty_table [] in
  let b := <["id" := JNum 1]> (plan_body "Gold" 3 100) in
  let b' := plan_body "Silver" 6 90 in
  fst (run (store b') (snd (run (store b) s))) = Thrown msg_duplicate_key.
Proof.
  intros s b b'.
  apply (store_explicit_next_key_blocks_store b b' s _ (Plan (JStr "Gold") 3 100)
                                             (Plan (JStr "Silver") 6 90));
    vm_compute; try reflexivity; discriminate.
Defined.

(** What [patch_plan] does to one column: keeps it when the body does
    not name it, takes the body's value through the column's input
    function otherwise. *)
Lemma patch_plan_columns p b p' :
  patch_plan p b = Some p' ->
  from_option pg_text (Some (plan_title p)) (b !! "title") = Some (plan_title p') /\
  from_option pg_int4 (Some (plan_duration p)) (b !! "duration") = Some (plan_duration p') /\
  from_option pg_float8 (Some (plan_price p)) (b !! "price") = Some (plan_price p').
Proof.
  unfold patch_plan.
  destruct (from_option pg_text _ _) eqn:E1, (from_option pg_int4 _ _) eqn:E2,
    (from_option pg_float8 _ _) eqn:E3; simpl; intros; simplify_eq/=; done.
Qed.

(** C16. An accepted [update] is the partial update of the plan the route
    names: the row keeps its key, a column the body does not name keeps
    its value, and a column the body names takes the body's value as
    PostgreSQL's input function for that column reads it. *)
Theorem update_changes_named_columns id b s k p k' p' s' :
  pg_int4_text id = Some k -> rows (plans s) !! k = Some p ->
  run (update id b) s = (Ok (k', p'), s') ->
  k' = k /\ s' = set_plans (tbl_update k p' (plans s)) s /\
  from_option pg_text (Some (plan_title p)) (b !! "title") = Some (plan_title p') /\
  from_option pg_int4 (Some (plan_duration p)) (b !! "duration") = Some (plan_duration p') /\
  from_option pg_float8 (Some (plan_price p)) (b !! "price") = Some (plan_price p').
Proof.
  intros Hk Hp. unfold update, run, mbind, handler_bind.
  destruct (isValid update_schema b); simpl; [|discriminate].
  rewrite findByPk_param, Hk. unfold tbl_find. rewrite Hp. simpl.
  destruct (patch_plan p b) as [p0|] eqn:Ep; simpl; intros; simplify_eq/=.
  destruct (patch_plan_columns _ _ _ Ep) as (? & ? & ?). by split_and!.
Qed.

(** [update_changes_named_columns] on the Gold plan: a body with only
    [price] changes only the price; an empty title also goes through. *)
Lemma update_changes_named_columns_witness :
  let s := DB empty_table (Table {[1 := Plan (JStr "Gold") 3 100]} 1) empty_table empty_table
             empty_table [] in
  let b : body := {["price" := JNum 90]} in
  run (update "1" b) s =
    (Ok (1, Plan (JStr "Gold") 3 90), set_plans (Table {[1 := Plan (JStr "Gold") 3 90]} 1) s) /\
  fst (run (update "1" {["title" := JStr ""]}) s) = Ok (1, Plan (JStr "") 3 100) /\
  from_option pg_float8 (Some (plan_price (Plan (JStr "Gold") 3 100))) (b !! "price")
    = Some (plan_price (Plan (JStr "Gold") 3 90)).
Proof.
  intros s b.
  assert (E : run (update "1" b) s =
    (Ok (1, Plan (JStr "Gold") 3 90), set_plans (Table {[1 := Plan (JStr "Gold") 3 90]} 1) s))
    by (vm_compute; reflexivity).
  split_and!; [exact E | vm_compute; reflexivity |].
  apply (update_changes_named_columns "1" b s 1 (Plan (JStr "Gold") 3 100) _ _ _ eq_refl eq_refl E).
Defined.

End PlanController.
