(* ===== verification/Enrollment.v ===== *)
(** * Enrollment: [src/src/app/controllers/EnrollmentController.js]

    [store] validates the body, finds the student and then the plan
    (answering 401 for the first one missing), snapshots the plan's total
    price ([Plan.calculateTotalPrice]), parses [start_date] with
    [parseISO], computes [end_date = addMonths(start, plan.duration)],
    inserts the enrollment and queues the "enrollment" mail.  [update]
    finds the enrollment and then re-resolves the student and the plan
    from the body as [store] does, and rewrites all five columns.  An
    invalid [Date] reaching [Enrollment.create] or [enrollment.update]
    makes PostgreSQL reject the query ([Thrown]).

    Theorems: an accepted [store] has the plan's price times its duration
    and an end date exactly [duration] months after the start, clamped to
    the end of the month; [update] recomputes everything from the plan the
    body names and the old row does not matter; an update that omits a
    field never succeeds; a start date Yup accepts but [parseISO] refuses
    makes [store] reject instead of answering 400; [delete] of an absent
    enrollment answers 400. *)

From S2P Require Import Prelude Dates Json Store Plan.
From Stdlib Require Import QArith.

#[local] Open Scope string_scope.
#[local] Open Scope Z_scope.

Module EnrollmentController.

Definition msg_validation : string := "Validation fails".
Definition msg_student : string := "Student not found".
Definition msg_plan : string := "Plan not found".
Definition msg_enrollment : string := "Enrollment not found".
Definition msg_bad_date : string := "invalid input syntax for type timestamp with time zone".

(** The schema of [store]. *)
Definition store_schema : yschema :=
  [("student_id", YField YInteger true); ("plan_id", YField YInteger true);
   ("start_date", YField YDate true)].

(** The schema of [update]: the same fields, none required. *)
Definition update_schema : yschema :=
  [("student_id", YField YInteger false); ("plan_id", YField YInteger false);
   ("start_date", YField YDate false)].

(** [parseISO(start_date)]: anything but a string is an invalid [Date]. *)
Definition parse_start (v : option jvalue) : option date :=
  match v with Some (JStr s) => parseISO s | _ => None end.

(** The enrollment of student [sid] to plan [(pid, p)] from the body's
    [start_date]: [calculateTotalPrice], [parseISO], [addMonths]; an
    invalid date makes the write reject. *)
Definition enrollment_row (sid pid : Z) (p : plan) (start_date : option jvalue)
  : handler db (Z * enrollment) enrollment :=
  let price := PlanModel.calculateTotalPrice p in
  let parsedStartDate := parse_start start_date in
  let parsedEndDate := addMonths parsedStartDate (plan_duration p) in
  start ← attempt msg_bad_date parsedStartDate;
  end_ ← attempt msg_bad_date parsedEndDate;
  mret (Enrollment sid pid start end_ price).

(** The "enrollment" mail. *)
Definition enrollment_mail (st : student) (p : plan) (e : enrollment) : mail :=
  EnrollmentMail (student_name st) (student_email st) (plan_title p) (plan_duration p)
    (format_MMddyyyy (enr_start_date e)) (format_MMddyyyy (enr_end_date e)) (toFixed2 (enr_price e)).

(** [async index(req, res)] *)
Definition index : handler db (list (Z * enrollment)) (reply (list (Z * enrollment))) :=
  found ← gets (fun s => tbl_where (fun _ => true) (enrollments s));
  mret (Ok found).

(** [async store(req, res)] *)
Definition store (b : body) : handler db (Z * enrollment) (reply (Z * enrollment)) :=
  if negb (isValid store_schema b) then respond (Fail 400 msg_validation)
  else
    student ← findByPk students (b !! "student_id");
    match student with
    | None => respond (Fail 401 msg_student)
    | Some (sid, st) =>
        plan ← findByPk plans (b !! "plan_id");
        match plan with
        | None => respond (Fail 401 msg_plan)
        | Some (pid, p) =>
            e ← enrollment_row sid pid p (b !! "start_date");
            enrollment ← create enrollments set_enrollments e;
            modify (send_mail (enrollment_mail st p e));;
            mret (Ok enrollment)
        end
    end.

(** [async update(req, res)] *)
Definition update (id : string) (b : body) : handler db (Z * enrollment) (reply (Z * enrollment)) :=
  if negb (isValid update_schema b) then respond (Fail 400 msg_validation)
  else
    enrollment ← findByPk enrollments (param id);
    match enrollment with
    | None => respond (Fail 401 msg_enrollment)
    | Some (eid, _) =>
        student ← findByPk students (b !! "student_id");
        match student with
        | None => respond (Fail 401 msg_student)
        | Some (sid, _) =>
            plan ← findByPk plans (b !! "plan_id");
            match plan with
            | None => respond (Fail 401 msg_plan)
            | Some (pid, p) =>
                e ← enrollment_row sid pid p (b !! "start_date");
                update_row enrollments set_enrollments eid e;;
                mret (Ok (eid, e))
            end
        end
    end.

(** [async delete(req, res)] *)
Definition delete (id : string) : handler db unit (reply unit) :=
  enrollment ← findByPk enrollments (param id);
  match enrollment with
  | None => respond (Fail 400 msg_enrollment)
  | Some (eid, _) => destroy_row enrollments set_enrollments eid;; mret NoContent
  end.

(** The spec's example: a plan of 3 months at 100, from 2023-01-31. *)
Definition sample_db : db :=
  DB (Table {[1 := Student "Ana" "ana@example.com"]} 1)
     (Table {[1 := Plan (JStr "Gold") 3 100]} 1) empty_table empty_table empty_table [].

Definition sample_body (start_date : string) : body :=
  <["student_id" := JNum 1]> (<["plan_id" := JStr "1"]> (<["start_date" := JStr start_date]> ∅)).

(** ** Theorems *)

Lemma enrollment_row_inv sid pid p v s o s' :
  enrollment_row sid pid p v s = (o, s') ->
  s' = s /\
  (forall e, o = inr e -> exists d, parse_start v = Some d /\
     in_js_range (addMonths_civil d (plan_duration p)) = true /\
     e = Enrollment sid pid d (addMonths_civil d (plan_duration p))
                    (PlanModel.calculateTotalPrice p)) /\
  (forall r, o = inl r -> r = Thrown msg_bad_date).
Proof.
  unfold enrollment_row, mbind, handler_bind, mret, handler_ret, attempt, addMonths.
  destruct (parse_start v) as [d|]; simpl; [|intros [= <- <-]; split_and!; congruence].
  destruct (in_js_range _) eqn:R; simpl; intros [= <- <-]; split_and!; try congruence.
  intros e [= <-]. eauto.
Qed.

(** Case analysis on [enrollment_row] inside a run that answered [Ok]. *)
Ltac row_cases F :=
  lazymatch goal with
  | H : context [enrollment_row ?sid ?pid ?p ?v ?s] |- _ =>
      let o := fresh "o" in let s1 := fresh "s" in
      destruct (enrollment_row sid pid p v s) as [o s1] eqn:F;
      apply enrollment_row_inv in F as (-> & F & ?);
      destruct o as [?|?]; simpl in H;
      [ exfalso; match goal with Hr : forall r, inl _ = inl r -> _ |- _ =>
          rewrite (Hr _ eq_refl) in H; discriminate end
      | destruct (F _ eq_refl) as (? & ? & ? & ->) ]
  end.

(** The date facts of an accepted enrollment. *)
Lemma enrollment_dates d n :
  valid_date d = true ->
  valid_date (addMonths_civil d n) = true /\
  (n <> 0 -> month_index (addMonths_civil d n) = month_index d + n /\
     day (addMonths_civil d n) =
       Z.min (day d) (days_in_month (year (addMonths_civil d n)) (month (addMonths_civil d n)))).
Proof.
  intros Hv. destruct (decide (n = 0)) as [->|Hn].
  - by rewrite addMonths_civil_zero.
  - split; [by apply addMonths_civil_valid|]. intros _.
    split; [by apply addMonths_civil_month_index|].
    rewrite (addMonths_civil_unfold d n Hn). simpl. reflexivity.
Qed.

Lemma parse_start_valid v d : parse_start v = Some d -> valid_date d = true.
Proof. destruct v as [[]|]; try discriminate. apply parseISO_valid. Qed.

(** C4. An accepted [store] refines the enrollment rule: the student and
    the plan are the rows the body's [student_id] and [plan_id] name, the start date is [parseISO] of
    the body's [start_date], the price is the plan's monthly price times
    its duration, the end date is a real date [duration] months after
    the start (day of month kept, clamped to the month's last day), the
    row is inserted under the returned key and the "enrollment" mail to
    the student is queued. *)
Theorem store_ok b s k e s' :
  run (store b) s = (Ok (k, e), s') ->
  exists st p d,
    pk_query_of (b !! "student_id") = PkKey (enr_student_id e) /\
    tbl_find (enr_student_id e) (students s) = Some st /\
    pk_query_of (b !! "plan_id") = PkKey (enr_plan_id e) /\
    tbl_find (enr_plan_id e) (plans s) = Some p /\
    parse_start (b !! "start_date") = Some d /\ enr_start_date e = d /\
    enr_price e = (plan_price p * inject_Z (plan_duration p))%Q /\
    enr_end_date e = addMonths_civil d (plan_duration p) /\
    valid_date (enr_end_date e) = true /\
    (plan_duration p <> 0 ->
       month_index (enr_end_date e) = month_index d + plan_duration p /\
       day (enr_end_date e) =
         Z.min (day d) (days_in_month (year (enr_end_date e)) (month (enr_end_date e)))) /\
    rows (enrollments s') !! k = Some e /\
    outbox s' = (outbox s ++ [enrollment_mail st p e])%list.
Proof.
  intros H. unfold store, run, mbind, handler_bind in H.
  destruct (isValid store_schema b); simpl in H; [|discriminate].
  find_cases F1. find_cases F2. row_cases F3.
  destruct (create _ _ _ _) as [o s4] eqn:F4 in H.
  apply create_inv in F4 as [F4 F4'].
  destruct o as [r|[k0 e0]]; simpl in H.
  { exfalso. injection H as -> _. by specialize (F4' _ eq_refl). }
  destruct (F4 _ _ eq_refl) as (-> & Hfresh & ->). injection H as <- <- <-.
  match goal with Hd : parse_start _ = Some ?d |- _ =>
    pose proof (parse_start_valid _ _ Hd) as Hv end.
  do 3 eexists. split_and!; simpl; eauto using lookup_insert_eq.
  - by apply enrollment_dates.
  - intros Hn. by apply enrollment_dates.
  - by rewrite lookup_insert_eq.
Qed.

(** [store_ok] on the spec's example: ends 2023-04-30, costs 300. *)
Lemma store_ok_witness :
  fst (run (store (sample_body "2023-01-31")) sample_db) =
    Ok (1, Enrollment 1 1 (mkDate 2023 1 31) (mkDate 2023 4 30) 300) /\
  month_index (mkDate 2023 4 30) = month_index (mkDate 2023 1 31) + 3.
Proof.
  set (r := run (store (sample_body "2023-01-31")) sample_db).
  assert (E : r = (Ok (1, Enrollment 1 1 (mkDate 2023 1 31) (mkDate 2023 4 30) 300), snd r))
    by (vm_compute; reflexivity).
  split; [by rewrite E|].
  destruct (store_ok _ _ _ _ _ E) as (st & p & d & _ & _ & _ & Hp & Hd & Hs & _ & _ & _ & Hm & _ & _).
  vm_compute in Hp, Hd. simplify_eq. destruct Hm as [Hmi _]; [simpl; lia|]. exact Hmi.
Defined.

(** C5. An accepted [update] recomputes the whole row from the body: the
    enrollment is the one the route's id names, the student and the plan
    are the rows the body's [student_id] and [plan_id] name (the keys
    [findByPk] reads from the body, not the old row's), the price and
    the dates are those of a fresh enrollment to that plan from the
    body's [start_date] whatever the old row held, the row is replaced in
    place, and no mail is sent. *)
Theorem update_ok id b s eid e s' :
  run (update id b) s = (Ok (eid, e), s') ->
  exists old p d,
    pk_query_of (param id) = PkKey eid /\
    tbl_find eid (enrollments s) = Some old /\
    pk_query_of (b !! "student_id") = PkKey (enr_student_id e) /\
    is_Some (tbl_find (enr_student_id e) (students s)) /\
    pk_query_of (b !! "plan_id") = PkKey (enr_plan_id e) /\
    tbl_find (enr_plan_id e) (plans s) = Some p /\
    parse_start (b !! "start_date") = Some d /\
    e = Enrollment (enr_student_id e) (enr_plan_id e) d (addMonths_civil d (plan_duration p))
                   (PlanModel.calculateTotalPrice p) /\
    s' = set_enrollments (tbl_update eid e (enrollments s)) s.
Proof.
  intros H. unfold update, run, mbind, handler_bind in H.
  destruct (isValid update_schema b); simpl in H; [|discriminate].
  find_cases F1. find_cases F2. find_cases F3. row_cases F4.
  injection H as <- <- <-. do 3 eexists. split_and!; simpl; eauto.
Qed.

(** C19. [update] never succeeds on a body that omits [student_id],
    [plan_id] or [start_date]: [findByPk(undefined)] is [null], so the
    student or the plan is "not found" although the enrollment already
    refers to one, and [parseISO(undefined)] is an invalid date. *)
Theorem update_requires_all_fields id b s r s' :
  run (update id b) s = (r, s') -> is_ok r = true ->
  is_Some (b !! "student_id") /\ is_Some (b !! "plan_id") /\ is_Some (b !! "start_date").
Proof.
  intros H Hr. destruct r as [[eid e]| | |]; try discriminate.
  unfold update, run, mbind, handler_bind in H.
  destruct (isValid update_schema b); simpl in H; [|discriminate].
  find_cases F1. find_cases F2. find_cases F3. row_cases F4.
  split_and!;
    [ destruct (b !! "student_id"); [by eexists | simpl in *; congruence]
    | destruct (b !! "plan_id"); [by eexists | simpl in *; congruence]
    | destruct (b !! "start_date"); [by eexists | simpl in *; congruence] ].
Qed.

(** [update_requires_all_fields] on the example: the full body succeeds;
    a body with only [start_date] gets "Student not found" although
    enrollment 1 exists. *)
Lemma update_requires_all_fields_witness :
  let s1 := snd (run (store (sample_body "2023-01-31")) sample_db) in
  (is_Some (sample_body "2023-03-01" !! "student_id") /\
   is_Some (sample_body "2023-03-01" !! "plan_id") /\
   is_Some (sample_body "2023-03-01" !! "start_date")) /\
  fst (run (update "1" {["start_date" := JStr "2023-03-01"]}) s1) = Fail 401 msg_student.
Proof.
  intros s1. split; [|vm_compute; reflexivity].
  apply (update_requires_all_fields "1" _ s1 (fst (run (update "1" (sample_body "2023-03-01")) s1))
           (snd (run (update "1" (sample_body "2023-03-01")) s1))).
  - apply surjective_pairing.
  - vm_compute. reflexivity.
Defined.

(** [update_ok] on the example: moving the start to 2023-03-01. *)
Lemma update_ok_witness :
  let s1 := snd (run (store (sample_body "2023-01-31")) sample_db) in
  let e := Enrollment 1 1 (mkDate 2023 3 1) (mkDate 2023 6 1) 300 in
  fst (run (update "1" (sample_body "2023-03-01")) s1) = Ok (1, e) /\
  snd (run (update "1" (sample_body "2023-03-01")) s1) =
    set_enrollments (tbl_update 1 e (enrollments s1)) s1.
Proof.
  intros s1 e.
  assert (E : run (update "1" (sample_body "2023-03-01")) s1 =
              (Ok (1, e), snd (run (update "1" (sample_body "2023-03-01")) s1)))
    by (vm_compute; reflexivity).
  split; [by rewrite E|].
  destruct (update_ok _ _ _ _ _ _ E) as (old & p & d & _ & _ & _ & _ & _ & _ & _ & _ & Hs). exact Hs.
Defined.

(** C20. A [start_date] that Yup's [date()] accepts but [parseISO]
    refuses (such as ["2023-02-30"], which Yup rolls over to March 2)
    passes validation, and then the insert of the invalid date rejects:
    the request gets no answer instead of 400, and nothing is written. *)
Theorem store_unparsable_date_rejects b s sid pid st p str :
  isValid store_schema b = true ->
  pk_query_of (b !! "student_id") = PkKey sid -> tbl_find sid (students s) = Some st ->
  pk_query_of (b !! "plan_id") = PkKey pid -> tbl_find pid (plans s) = Some p ->
  b !! "start_date" = Some (JStr str) -> parseISO str = None ->
  run (store b) s = (Thrown msg_bad_date, s).
Proof.
  intros Hv Hq1 Hs Hq2 Hp Hd Hparse.
  unfold store, run, mbind, handler_bind. rewrite Hv. simpl.
  unfold findByPk. rewrite Hq1, Hq2. simpl. rewrite Hs. simpl. rewrite Hp. simpl.
  unfold enrollment_row, mbind, handler_bind. simpl. rewrite Hd. simpl. by rewrite Hparse.
Qed.

(** [store_unparsable_date_rejects] at ["2023-02-30"]. *)
Lemma store_unparsable_date_rejects_witness :
  isValid store_schema (sample_body "2023-02-30") = true /\
  run (store (sample_body "2023-02-30")) sample_db = (Thrown msg_bad_date, sample_db).
Proof.
  split; [vm_compute; reflexivity|].
  apply (store_unparsable_date_rejects _ _ 1 1 (Student "Ana" "ana@example.com")
           (Plan (JStr "Gold") 3 100) "2023-02-30"); vm_compute; reflexivity.
Defined.

(** C25. [delete] of an enrollment that does not exist answers 400
    "Enrollment not found" and writes nothing; of one that exists,
    removes exactly that row and answers 204. *)
Theorem enrollment_delete_absent_or_removed id k s :
  pg_int4_text id = Some k ->
  run (delete id) s =
  match tbl_find k (enrollments s) with
  | None => (Fail 400 msg_enrollment, s)
  | Some _ => (NoContent, set_enrollments (tbl_delete k (enrollments s)) s)
  end.
Proof. intros Hk. unfold delete. by rewrite find_destroy_run, Hk. Qed.

(** [enrollment_delete_absent_or_removed] on the example: enrollment 1 goes, a
    second delete answers 400. *)
Lemma enrollment_delete_absent_or_removed_witness :
  let s1 := snd (run (store (sample_body "2023-01-31")) sample_db) in
  fst (run (delete "1") s1) = NoContent /\
  fst (run (delete "1") (snd (run (delete "1") s1))) = Fail 400 msg_enrollment.
Proof.
  intros s1. rewrite (enrollment_delete_absent_or_removed "1" 1 s1) by reflexivity.
  split; vm_compute; reflexivity.
Defined.

End EnrollmentController.
