(* ===== verification/HelpOrder.v ===== *)
(** * HelpOrder: [src/src/app/controllers/HelpOrderController.js]

    [index] lists a student's help orders projected to
    [{ student_id, question, answer, answer_at }]; [store] validates the
    question, finds the student and inserts an unanswered order, answering
    [{ student_id: id, question }] with the route's id as sent;
    [unanswerdQuestions] lists the orders whose [answer_at] is null with
    their student ([include] is a left outer join: [None] when the student
    row is gone); [answer] validates the answer, finds the order, sets
    [answer] and [answer_at], calls [helpOrder.save()] without awaiting it,
    finds the student, queues the "help_order_answer" mail and answers with
    the order as set in memory.  The save is modelled as taking effect when
    the column accepts the value and as lost (an unhandled rejection)
    otherwise; an absent student makes [student.name] throw.

    Theorems: an accepted [answer] sets the answer and its time together;
    in every reachable state answer and answer time are both set or both
    null; an answered order is no longer listed as unanswered; an order can
    be answered again; when the save fails the reply still shows the
    answer. *)

From S2P Require Import Prelude Dates Json Store Plan.
From Stdlib Require Import QArith.

#[local] Open Scope string_scope.
#[local] Open Scope Z_scope.

Module HelpOrderController.

Definition msg_validation : string := "Validation fails".
Definition msg_student : string := "Student not found".
Definition msg_order : string := "Help Order not found".
Definition msg_null_student : string := "Cannot read property 'name' of null".

Definition store_schema : yschema := [("question", YField YString true)].
Definition answer_schema : yschema := [("answer", YField YString true)].

(** [{ student_id, question, answer, answer_at }] *)
Record order_view := OrderView {
  view_student_id : Z; view_question : jvalue;
  view_answer : option jvalue; view_answer_at : option Z }.

Definition project (o : help_order) : order_view :=
  OrderView (ho_student_id o) (ho_question o) (ho_answer o) (ho_answer_at o).

Definition of_student (sid : Z) (o : help_order) : bool := ho_student_id o =? sid.

(** [where: { answer_at: null }] *)
Definition unanswered (o : help_order) : bool :=
  match ho_answer_at o with None => true | Some _ => false end.

(** The column value a text column receives. *)
Definition column_text (v : jvalue) : option jvalue := PlanController.pg_text v.

(** [async index(req, res)] *)
Definition index (id : string) : handler db (list order_view) (reply (list order_view)) :=
  student ← findByPk students (param id);
  match student with
  | None => respond (Fail 401 msg_student)
  | Some (sid, _) =>
      found ← gets (fun s => tbl_where (of_student sid) (help_orders s));
      mret (Ok (map (fun kv => project kv.2) found))
  end.

(** [async store(req, res)]: the answer is [{ student_id: id, question }]. *)
Definition store (id : string) (b : body) : handler db (string * jvalue) (reply (string * jvalue)) :=
  if negb (isValid store_schema b) then respond (Fail 400 msg_validation)
  else
    student ← findByPk students (param id);
    match student with
    | None => respond (Fail 401 msg_student)
    | Some (sid, _) =>
        question ← attempt msg_validation (b !! "question");
        q ← attempt "invalid value" (column_text question);
        create help_orders set_help_orders (HelpOrder sid q None None);;
        mret (Ok (id, question))
    end.

(** [async unanswerdQuestions(req, res)] *)
Definition unanswerdQuestions
  : handler db (list (Z * help_order * option (Z * string)))
               (reply (list (Z * help_order * option (Z * string)))) :=
  found ← gets (fun s =>
    map (fun kv => (kv.1, kv.2,
                    (fun st => (ho_student_id kv.2, student_name st))
                      <$> tbl_find (ho_student_id kv.2) (students s)))
        (tbl_where unanswered (help_orders s)));
  mret (Ok found).

(** [helpOrder.save()], not awaited: the write happens when the column
    takes the value; otherwise the rejection is lost. *)
Definition save_unawaited (hid : Z) (o : help_order) : handler db (Z * help_order) unit :=
  match ho_answer o ≫= column_text with
  | Some _ => update_row help_orders set_help_orders hid o
  | None => mret ()
  end.

(** [async answer(req, res)] *)
Definition answer (id : string) (b : body) (now : Z)
  : handler db (Z * help_order) (reply (Z * help_order)) :=
  if negb (isValid answer_schema b) then respond (Fail 400 msg_validation)
  else
    helpOrder ← findByPk help_orders (param id);
    match helpOrder with
    | None => respond (Fail 401 msg_order)
    | Some (hid, o) =>
        ans ← attempt msg_validation (b !! "answer");
        let question := ho_question o in
        let o' := HelpOrder (ho_student_id o) question (Some ans) (Some now) in
        save_unawaited hid o';;
        student ← findByPk students (Some (JNum (inject_Z (ho_student_id o))));
        match student with
        | None => respond (Thrown msg_null_student)
        | Some (_, st) =>
            modify (send_mail (AnswerMail (student_name st) (student_email st) question ans));;
            mret (Ok (hid, o'))
        end
    end.

(** Answer and answer time are both set or both null. *)
Definition consistent (t : table help_order) : Prop :=
  forall k o, rows t !! k = Some o -> (is_Some (ho_answer o) <-> is_Some (ho_answer_at o)).

(** One step keeps a consistent table consistent. *)
Definition keeps_consistent (s s' : db) : Prop :=
  consistent (help_orders s) -> consistent (help_orders s').

#[export] Instance keeps_consistent_trans : Transitive keeps_consistent.
Proof. intros ??? H1 H2 H. auto. Qed.

(** Requests in any order; [reach_other] is a request to another
    controller, which leaves the help orders alone. *)
Inductive reachable : db -> Prop :=
| reach_init s : rows (help_orders s) = ∅ -> reachable s
| reach_store s id b : reachable s -> reachable (snd (run (store id b) s))
| reach_answer s id b now : reachable s -> reachable (snd (run (answer id b now) s))
| reach_other s s' : reachable s -> rows (help_orders s') = rows (help_orders s) -> reachable s'.

(** A student with no help order yet. *)
Definition sample_db : db :=
  DB (Table {[1 := Student "Ana" "ana@example.com"]} 1) empty_table empty_table empty_table
     empty_table [].

Definition question_body : body := {["question" := JStr "Can I train twice a day?"]}.
Definition answer_body (v : jvalue) : body := {["answer" := v]}.

(** ** Theorems *)

Lemma consistent_insert t k o s :
  consistent t -> (is_Some (ho_answer o) <-> is_Some (ho_answer_at o)) ->
  consistent (Table (<[k:=o]> (rows t)) s).
Proof.
  intros Ht Ho k' o'. simpl. rewrite lookup_insert.
  case_decide; [intros [= <-]; done | apply Ht].
Qed.

(** A step of [store] or [answer] keeps the table consistent. *)
Ltac consistent_leaf :=
  intros Hc; first
    [ rewrite (readonly_state _ _ (findByPk_readonly _ _)); exact Hc
    | unfold create, update_row, attempt, respond, gets, modify, mret, handler_ret,
        tbl_create, tbl_update;
      simpl; repeat case_match; simplify_eq/=;
      first [ exact Hc
            | apply consistent_insert; [exact Hc | simpl; split; intros [? ?]; by eauto] ] ].

Lemma store_keeps_consistent id b : keeps keeps_consistent (store id b).
Proof. unfold store. keeps_tac consistent_leaf. Qed.

Lemma answer_keeps_consistent id b now : keeps keeps_consistent (answer id b now).
Proof. unfold answer, save_unawaited. keeps_tac consistent_leaf. Qed.

Lemma reachable_consistent s : reachable s -> consistent (help_orders s).
Proof.
  induction 1 as [s H|s id b _ IH|s id b now _ IH|s s' _ IH Heq].
  - intros k o. by rewrite H, lookup_empty.
  - exact (run_keeps keeps_consistent _ s (store_keeps_consistent id b) IH).
  - exact (run_keeps keeps_consistent _ s (answer_keeps_consistent id b now) IH).
  - intros k o. rewrite Heq. apply IH.
Qed.

(** C8. In every reachable state, every help order has both its answer
    and its answer time, or neither. *)
Theorem answer_fields_consistent s : reachable s -> consistent (help_orders s).
Proof. apply reachable_consistent. Qed.

(** [answer_fields_consistent] after a question and its answer. *)
Lemma answer_fields_consistent_witness :
  let s := snd (run (answer "1" (answer_body (JStr "Yes")) 50)
                 (snd (run (store "1" question_body) sample_db))) in
  reachable s /\ consistent (help_orders s).
Proof.
  intros s. assert (R : reachable s).
  { apply reach_answer, reach_store, reach_init. reflexivity. }
  split; [exact R | exact (answer_fields_consistent s R)].
Defined.

Lemma findByPk_student_key {R} z s :
  findByPk (R:=R) students (Some (JNum (inject_Z z))) s =
  (inr ((fun st => (z, st)) <$> tbl_find z (students s)), s).
Proof. unfold findByPk. simpl. by rewrite is_integer_Z, Z.div_1_r. Qed.

(** The accepted path of [answer], written out. *)
Lemma answer_run id b now s hid o v st :
  isValid answer_schema b = true -> b !! "answer" = Some v -> pg_int4_text id = Some hid ->
  tbl_find hid (help_orders s) = Some o -> tbl_find (ho_student_id o) (students s) = Some st ->
  run (answer id b now) s =
  (Ok (hid, HelpOrder (ho_student_id o) (ho_question o) (Some v) (Some now)),
   send_mail (AnswerMail (student_name st) (student_email st) (ho_question o) v)
     (match column_text v with
      | Some _ => set_help_orders
                    (tbl_update hid (HelpOrder (ho_student_id o) (ho_question o) (Some v) (Some now))
                                (help_orders s)) s
      | None => s
      end)).
Proof.
  intros Hv Hb Hid Ho Hst. unfold answer, run, mbind, handler_bind. rewrite Hv. simpl.
  rewrite findByPk_param, Hid. simpl. rewrite Ho. simpl. rewrite Hb. simpl.
  unfold save_unawaited. simpl.
  destruct (column_text v); simpl; rewrite findByPk_student_key; simpl; rewrite Hst; reflexivity.
Qed.

(** An accepted [answer] took the accepted path. *)
Lemma answer_ok id b now s hid o' s' :
  run (answer id b now) s = (Ok (hid, o'), s') ->
  exists o v st,
    isValid answer_schema b = true /\ b !! "answer" = Some v /\ pg_int4_text id = Some hid /\
    tbl_find hid (help_orders s) = Some o /\ tbl_find (ho_student_id o) (students s) = Some st.
Proof.
  intros H. unfold answer, run, mbind, handler_bind in H.
  destruct (isValid answer_schema b) eqn:Hv; simpl in H; [|discriminate].
  rewrite findByPk_param in H. destruct (pg_int4_text id) as [k|]; simpl in H; [|discriminate].
  destruct (tbl_find k (help_orders s)) as [o|] eqn:Ho; simpl in H; [|discriminate].
  destruct (b !! "answer") as [v|] eqn:Hb; simpl in H; [|discriminate].
  unfold save_unawaited in H. simpl in H.
  destruct (column_text v); simpl in H; rewrite findByPk_student_key in H; simpl in H;
    (destruct (tbl_find (ho_student_id o) (students _)) as [st|] eqn:Hst; simpl in H;
       [|discriminate]);
    injection H as <- _ _; exists o, v, st; simpl in Hst; done.
Qed.

(** C18. After an accepted [answer] whose text the column takes, the
    order is not in the list [unanswerdQuestions] returns. *)
Theorem answered_not_listed id b now s hid o' s' l v :
  run (answer id b now) s = (Ok (hid, o'), s') ->
  b !! "answer" = Some v -> is_Some (column_text v) ->
  fst (run unanswerdQuestions s') = Ok l ->
  forall x, x ∈ l -> x.1.1 <> hid.
Proof.
  intros H Hb [c Hc] Hl x Hx.
  destruct (answer_ok _ _ _ _ _ _ _ H) as (o & v' & st & Hv & Hb' & Hid & Ho & Hst).
  rewrite Hb in Hb'. injection Hb' as <-.
  rewrite (answer_run id b now s hid o v st) in H by done. rewrite Hc in H.
  injection H as _ <-. simpl in Hl. injection Hl as <-.
  apply list_elem_of_fmap in Hx as ([k o1] & -> & Hk). simpl.
  apply tbl_where_elem in Hk as [Hk Hun]. simpl in Hk. intros ->.
  rewrite lookup_insert_eq in Hk. injection Hk as <-. discriminate.
Qed.

(** [answered_not_listed] on the sample: the answered question leaves
    the list. *)
Lemma answered_not_listed_witness :
  let s1 := snd (run (store "1" question_body) sample_db) in
  let r := run (answer "1" (answer_body (JStr "Yes")) 50) s1 in
  fst (run unanswerdQuestions (snd r)) = Ok [] /\
  forall x, x ∈ (@nil (Z * help_order * option (Z * string))) -> x.1.1 <> 1.
Proof.
  intros s1 r. split; [vm_compute; reflexivity|].
  apply (answered_not_listed "1" (answer_body (JStr "Yes")) 50 s1 1
           (HelpOrder 1 (JStr "Can I train twice a day?") (Some (JStr "Yes")) (Some 50))
           (snd r) [] (JStr "Yes")).
  - vm_compute. reflexivity.
  - reflexivity.
  - by eexists.
  - vm_compute. reflexivity.
Defined.

(** C22. Nothing guards against answering twice: an order that already
    has an answer is answered again, the new answer and time replace the
    old ones and a second mail goes out. *)
Theorem answer_overwrites_answered id b now s hid o v st a0 t0 :
  isValid answer_schema b = true -> b !! "answer" = Some v -> is_Some (column_text v) ->
  pg_int4_text id = Some hid -> tbl_find hid (help_orders s) = Some o ->
  ho_answer o = Some a0 -> ho_answer_at o = Some t0 ->
  tbl_find (ho_student_id o) (students s) = Some st ->
  fst (run (answer id b now) s) = Ok (hid, HelpOrder (ho_student_id o) (ho_question o) (Some v) (Some now)) /\
  tbl_find hid (help_orders (snd (run (answer id b now) s))) =
    Some (HelpOrder (ho_student_id o) (ho_question o) (Some v) (Some now)) /\
  outbox (snd (run (answer id b now) s)) =
    (outbox s ++ [AnswerMail (student_name st) (student_email st) (ho_question o) v])%list.
Proof.
  intros Hv Hb [c Hc] Hid Ho _ _ Hst.
  rewrite (answer_run id b now s hid o v st Hv Hb Hid Ho Hst), Hc. simpl.
  split_and!; [done | apply lookup_insert_eq | done].
Qed.

(** [answer_overwrites_answered]: a question answered "Yes", then "No". *)
Lemma answer_overwrites_answered_witness :
  let s1 := snd (run (answer "1" (answer_body (JStr "Yes")) 50)
                  (snd (run (store "1" question_body) sample_db))) in
  fst (run (answer "1" (answer_body (JStr "No")) 60) s1) =
    Ok (1, HelpOrder 1 (JStr "Can I train twice a day?") (Some (JStr "No")) (Some 60)).
Proof.
  intros s1.
  apply (answer_overwrites_answered "1" _ 60 s1 1 (HelpOrder 1 (JStr "Can I train twice a day?")
           (Some (JStr "Yes")) (Some 50)) (JStr "No") (Student "Ana" "ana@example.com")
           (JStr "Yes") 50); try (vm_compute; reflexivity). by eexists.
Defined.

(** C21. [helpOrder.save()] is not awaited: when the column refuses the
    answer (an object, which Yup's [string()] accepts as
    ["[object Object]"]), the save rejects unseen, the reply still shows
    the order answered, and the stored order is unchanged, so it is still
    listed as unanswered. *)
Theorem answer_reply_without_write id b now s hid o v st :
  isValid answer_schema b = true -> b !! "answer" = Some v -> column_text v = None ->
  pg_int4_text id = Some hid -> tbl_find hid (help_orders s) = Some o ->
  tbl_find (ho_student_id o) (students s) = Some st ->
  fst (run (answer id b now) s) = Ok (hid, HelpOrder (ho_student_id o) (ho_question o) (Some v) (Some now)) /\
  help_orders (snd (run (answer id b now) s)) = help_orders s.
Proof.
  intros Hv Hb Hc Hid Ho Hst.
  rewrite (answer_run id b now s hid o v st Hv Hb Hid Ho Hst), Hc. done.
Qed.

(** [answer_reply_without_write] with an object as the answer. *)
Lemma answer_reply_without_write_witness :
  let s1 := snd (run (store "1" question_body) sample_db) in
  isValid answer_schema (answer_body JObject) = true /\
  fst (run (answer "1" (answer_body JObject) 50) s1) =
    Ok (1, HelpOrder 1 (JStr "Can I train twice a day?") (Some JObject) (Some 50)) /\
  help_orders (snd (run (answer "1" (answer_body JObject) 50) s1)) = help_orders s1.
Proof.
  intros s1. split; [reflexivity|].
  apply (answer_reply_without_write "1" _ 50 s1 1 (HelpOrder 1 (JStr "Can I train twice a day?")
           None None) JObject (Student "Ana" "ana@example.com")); vm_compute; reflexivity.
Defined.

(** C17. An accepted [store] inserts the question as an unanswered order
    of the student under the next key, and answers
    [{ student_id: id, question }]: the route parameter as the client
    wrote it and the question as sent, not the stored order. *)
Theorem store_replies_route_id id b s sid st q q' :
  isValid store_schema b = true -> pg_int4_text id = Some sid -> tbl_find sid (students s) = Some st ->
  b !! "question" = Some q -> column_text q = Some q' ->
  tbl_wf (help_orders s) -> serial (help_orders s) < int4_max ->
  run (store id b) s =
  (Ok (id, q),
   set_help_orders (Table (<[serial (help_orders s) + 1 := HelpOrder sid q' None None]>
                             (rows (help_orders s))) (serial (help_orders s) + 1)) s).
Proof.
  intros Hv Hid Hst Hq Hc Hwf Hmax. unfold store, run, mbind, handler_bind. rewrite Hv. simpl.
  rewrite findByPk_param, Hid, Hst. simpl. rewrite Hq. simpl. rewrite Hc. simpl.
  by rewrite create_wf.
Qed.

(** [store_replies_route_id] with the route parameter ["01"]: the reply
    says ["01"], the row says student 1. *)
Lemma store_replies_route_id_witness :
  fst (run (store "01" question_body) sample_db) = Ok ("01", JStr "Can I train twice a day?") /\
  run (store "01" question_body) sample_db =
  (Ok ("01", JStr "Can I train twice a day?"),
   set_help_orders (Table (<[serial (help_orders sample_db) + 1 :=
                              HelpOrder 1 (JStr "Can I train twice a day?") None None]>
                             (rows (help_orders sample_db))) (serial (help_orders sample_db) + 1))
                   sample_db).
Proof.
  split; [vm_compute; reflexivity|].
  apply (store_replies_route_id "01" question_body sample_db 1 (Student "Ana" "ana@example.com"));
    try (vm_compute; reflexivity).
  intros k o. simpl. by rewrite lookup_empty.
Defined.

(** C15. [unanswerdQuestions] writes nothing and lists exactly the
    orders whose [answer_at] is null, each with the [id] and [name] of its
    student (nothing when the student row is missing). *)
Theorem unanswered_lists_exactly s :
  exists l, run unanswerdQuestions s = (Ok l, s) /\
  forall k o j, (k, o, j) ∈ l <->
    rows (help_orders s) !! k = Some o /\ ho_answer_at o = None /\
    j = (fun st => (ho_student_id o, student_name st)) <$> rows (students s) !! ho_student_id o.
Proof.
  eexists. split; [reflexivity|]. intros k o j.
  rewrite list_elem_of_fmap. split.
  - intros ([k' o'] & [= -> -> ->] & Hin). apply tbl_where_elem in Hin as [Hk Hu].
    unfold unanswered in Hu. by destruct (ho_answer_at o').
  - intros (Hk & Hu & ->). exists (k, o). split; [done|].
    apply tbl_where_elem. unfold unanswered. by rewrite Hu.
Qed.

End HelpOrderController.
