(* ===== verification/Typing.v ===== *)
(** * Typing: the column types and references of the database

    The migrations are not under [src/]; the types are those of the
    models and of PostgreSQL: keys and [integer] columns are 32-bit, the
    sequences of [SERIAL] keys stay in that range, a [timestamp] column
    holds a calendar date, and the [student_id] of a check-in, an
    enrollment or a help order names a student.  [db_typed] is all of
    this; each handler keeps it, proved by symbolic execution with the
    weakest-precondition rules of [Prelude] and [Store] ([wp_tac]): the
    proof of a handler follows its awaits, and every write is discharged
    by a lemma on typed tables.  [App] composes these into the invariant
    of the whole application. *)

From S2P Require Import Prelude Dates Json Store Checkin Plan Enrollment HelpOrder.
From Stdlib Require Import QArith.

#[local] Open Scope Z_scope.

(** An [integer] column that names a student. *)
Definition refers (st : table student) (sid : Z) : Prop :=
  in_int4 sid = true /\ is_Some (rows st !! sid).

Definition plan_ok (p : plan) : Prop := in_int4 (plan_duration p) = true.

Definition checkin_ok (st : table student) (c : checkin) : Prop :=
  refers st (checkin_student_id c).

Definition enrollment_ok (st : table student) (e : enrollment) : Prop :=
  refers st (enr_student_id e) /\ in_int4 (enr_plan_id e) = true /\
  valid_date (enr_start_date e) = true /\ valid_date (enr_end_date e) = true.

Definition help_order_ok (st : table student) (o : help_order) : Prop :=
  refers st (ho_student_id o).

Definition db_typed (s : db) : Prop :=
  tbl_typed (fun _ => True) (students s) /\
  tbl_typed plan_ok (plans s) /\
  tbl_typed (enrollment_ok (students s)) (enrollments s) /\
  tbl_typed (checkin_ok (students s)) (checkins s) /\
  tbl_typed (help_order_ok (students s)) (help_orders s).

#[export] Instance db_typed_dec s : Decision (db_typed s).
Proof.
  unfold db_typed, tbl_typed, plan_ok, enrollment_ok, checkin_ok, help_order_ok, refers.
  apply _.
Defined.

(** A handler that keeps the database typed on every path. *)
Definition typed_handler {R A} (h : handler db R A) : Prop :=
  forall s, db_typed s -> wp h (fun _ => db_typed) db_typed s.

(** ** Writes that keep the types *)

Section Writes.
Context (s : db) (Hs : db_typed s).

Lemma typed_set_plans t : tbl_typed plan_ok t -> db_typed (set_plans t s).
Proof. unfold db_typed in *. intros. destruct Hs as (? & ? & ? & ? & ?). by split_and!. Qed.

Lemma typed_set_enrollments t :
  tbl_typed (enrollment_ok (students s)) t -> db_typed (set_enrollments t s).
Proof. unfold db_typed in *. intros. destruct Hs as (? & ? & ? & ? & ?). by split_and!. Qed.

Lemma typed_set_checkins t : tbl_typed (checkin_ok (students s)) t -> db_typed (set_checkins t s).
Proof. unfold db_typed in *. intros. destruct Hs as (? & ? & ? & ? & ?). by split_and!. Qed.

Lemma typed_set_help_orders t :
  tbl_typed (help_order_ok (students s)) t -> db_typed (set_help_orders t s).
Proof. unfold db_typed in *. intros. destruct Hs as (? & ? & ? & ? & ?). by split_and!. Qed.

Lemma typed_send_mail m : db_typed (send_mail m s).
Proof. unfold db_typed in *. intros. destruct Hs as (? & ? & ? & ? & ?). by split_and!. Qed.

(** A row found by key in the students' table is referable. *)
Lemma typed_student k st : rows (students s) !! k = Some st -> refers (students s) k.
Proof.
  intros Hk. destruct Hs as (Hst & _). split; [|by eexists].
  exact (proj1 (tbl_typed_lookup _ _ _ _ Hst Hk)).
Qed.
End Writes.

Lemma typed_plans s : db_typed s -> tbl_typed plan_ok (plans s).
Proof. by intros (? & ? & ? & ? & ?). Qed.
Lemma typed_enrollments s : db_typed s -> tbl_typed (enrollment_ok (students s)) (enrollments s).
Proof. by intros (? & ? & ? & ? & ?). Qed.
Lemma typed_checkins s : db_typed s -> tbl_typed (checkin_ok (students s)) (checkins s).
Proof. by intros (? & ? & ? & ? & ?). Qed.
Lemma typed_help_orders s : db_typed s -> tbl_typed (help_order_ok (students s)) (help_orders s).
Proof. by intros (? & ? & ? & ? & ?). Qed.

(** The keys and rows a typed state holds. *)
Lemma typed_key_plans s k p : db_typed s -> rows (plans s) !! k = Some p -> in_int4 k = true.
Proof. intros Hs Hk. exact (proj1 (tbl_typed_lookup _ _ _ _ (typed_plans s Hs) Hk)). Qed.
Lemma typed_row_plans s k p :
  db_typed s -> rows (plans s) !! k = Some p -> in_int4 (plan_duration p) = true.
Proof. intros Hs Hk. exact (proj2 (tbl_typed_lookup _ _ _ _ (typed_plans s Hs) Hk)). Qed.
Lemma typed_key_enrollments s k e : db_typed s -> rows (enrollments s) !! k = Some e -> in_int4 k = true.
Proof. intros Hs Hk. exact (proj1 (tbl_typed_lookup _ _ _ _ (typed_enrollments s Hs) Hk)). Qed.
Lemma typed_key_help_orders s k o : db_typed s -> rows (help_orders s) !! k = Some o -> in_int4 k = true.
Proof. intros Hs Hk. exact (proj1 (tbl_typed_lookup _ _ _ _ (typed_help_orders s Hs) Hk)). Qed.
Lemma typed_row_help_orders s k o :
  db_typed s -> rows (help_orders s) !! k = Some o -> refers (students s) (ho_student_id o).
Proof. intros Hs Hk. exact (proj2 (tbl_typed_lookup _ _ _ _ (typed_help_orders s Hs) Hk)). Qed.

(** The rows the handlers build from a body. *)
Lemma plan_of_body_ok b p :
  PlanController.plan_of_body b = Some p -> in_int4 (plan_duration p) = true.
Proof.
  unfold PlanController.plan_of_body.
  destruct (b !! "title" ≫= _), (b !! "duration" ≫= pg_int4) eqn:E, (b !! "price" ≫= _);
    simpl; intros; simplify_eq/=.
  destruct (b !! "duration"); simpl in E; [by apply pg_int4_range in E | done].
Qed.

Lemma patch_plan_ok p b p' :
  in_int4 (plan_duration p) = true -> PlanController.patch_plan p b = Some p' ->
  in_int4 (plan_duration p') = true.
Proof.
  unfold PlanController.patch_plan. intros Hp.
  destruct (from_option _ _ (b !! "title")), (from_option pg_int4 _ (b !! "duration")) eqn:E,
    (from_option _ _ (b !! "price")); simpl; intros; simplify_eq/=.
  destruct (b !! "duration"); simpl in E; [by apply pg_int4_range in E | by simplify_eq].
Qed.

Lemma end_date_valid v n d :
  addMonths (EnrollmentController.parse_start v) n = Some d -> valid_date d = true.
Proof. apply addMonths_valid. apply EnrollmentController.parse_start_valid. Qed.

Create HintDb typing discriminated.
#[export] Hint Resolve typed_student typed_key_plans typed_row_plans typed_key_enrollments
  typed_key_help_orders typed_row_help_orders pg_int4_range plan_of_body_ok patch_plan_ok
  EnrollmentController.parse_start_valid end_date_valid : typing.

(** ** Symbolic execution *)

(** Use what a [findByPk] found. *)
Ltac found_facts :=
  repeat match goal with
  | H : forall k a, Some (?x, ?y) = Some (k, a) -> _ |- _ => specialize (H x y eq_refl)
  | H : forall k a, None = Some (k, a) -> _ |- _ => clear H
  end.

Ltac wp_step :=
  lazymatch goal with
  | |- wp (mbind _ _) _ _ _ => apply wp_bind
  | |- wp (mret _) _ _ _ => apply wp_ret
  | |- wp (respond _) _ _ _ => apply wp_respond
  | |- wp (gets _) _ _ _ => apply wp_gets
  | |- wp (modify _) _ _ _ => apply wp_modify
  | |- wp (findByPk _ _) _ _ _ => apply wp_findByPk; [| intros ?o ?Hfound]
  | |- wp (attempt _ _) _ _ _ => apply wp_attempt; [intros ?a ?Hsome |]
  | |- wp (create _ _ _) _ _ _ => apply wp_create; [intros ?k ?Hcreated |]
  | |- wp (create_at _ _ _ _) _ _ _ => apply wp_create_at; [intros ?t ?Hcreated |]
  | |- wp (update_row _ _ _ _) _ _ _ => apply wp_update_row
  | |- wp (destroy_row _ _ _) _ _ _ => apply wp_destroy_row
  | |- wp (match ?x with _ => _ end) _ _ _ => destruct x eqn:?
  | |- wp (if ?b then _ else _) _ _ _ => destruct b eqn:?
  | |- wp (let _ := _ in _) _ _ _ => cbv zeta
  | |- (fun _ => _) _ _ => cbv beta
  end.

(** Run a handler symbolically from a typed state [s]. *)
Ltac wp_tac := intros ?s ?Htyped; repeat (wp_step; found_facts).

(** Close a leaf: a typed state, or a write of a typed row. *)
Ltac table_leaf typed_tbl :=
  first
    [ apply tbl_typed_create; [by apply typed_tbl |]
    | eapply tbl_typed_create_at; [by apply typed_tbl | | | eassumption]
    | apply tbl_typed_update; [by apply typed_tbl | |]
    | apply tbl_typed_delete; by apply typed_tbl ].

Ltac typed_leaf :=
  first
    [ assumption
    | apply typed_send_mail; typed_leaf
    | apply typed_set_checkins; [typed_leaf | table_leaf typed_checkins]
    | apply typed_set_plans; [typed_leaf | table_leaf typed_plans]
    | apply typed_set_enrollments; [typed_leaf | table_leaf typed_enrollments]
    | apply typed_set_help_orders; [typed_leaf | table_leaf typed_help_orders] ].

Ltac row_ok :=
  unfold checkin_ok, plan_ok, enrollment_ok, help_order_ok; simpl; split_and?; eauto with typing.

(** ** Every handler keeps the types *)

Lemma checkin_store_typed id now : typed_handler (CheckinController.store id now).
Proof.
  unfold CheckinController.store, CheckinController.store_check, CheckinController.store_commit.
  wp_tac. all: typed_leaf; row_ok.
Qed.

Lemma checkin_index_typed id : typed_handler (CheckinController.index id).
Proof. unfold CheckinController.index. wp_tac. all: typed_leaf. Qed.

Lemma plan_index_typed : typed_handler PlanController.index.
Proof. unfold PlanController.index. wp_tac. all: typed_leaf. Qed.

Lemma plan_store_typed b : typed_handler (PlanController.store b).
Proof. unfold PlanController.store. wp_tac. all: typed_leaf; row_ok. Qed.

Lemma plan_update_typed id b : typed_handler (PlanController.update id b).
Proof. unfold PlanController.update. wp_tac. all: typed_leaf; row_ok. Qed.

Lemma plan_delete_typed id : typed_handler (PlanController.delete id).
Proof. unfold PlanController.delete. wp_tac. all: typed_leaf. Qed.

Lemma enrollment_index_typed : typed_handler EnrollmentController.index.
Proof. unfold EnrollmentController.index. wp_tac. all: typed_leaf. Qed.

Lemma enrollment_store_typed b : typed_handler (EnrollmentController.store b).
Proof.
  unfold EnrollmentController.store, EnrollmentController.enrollment_row.
  wp_tac. all: typed_leaf; row_ok.
Qed.

Lemma enrollment_update_typed id b : typed_handler (EnrollmentController.update id b).
Proof.
  unfold EnrollmentController.update, EnrollmentController.enrollment_row.
  wp_tac. all: typed_leaf; row_ok.
Qed.

Lemma enrollment_delete_typed id : typed_handler (EnrollmentController.delete id).
Proof. unfold EnrollmentController.delete. wp_tac. all: typed_leaf. Qed.

Lemma help_order_index_typed id : typed_handler (HelpOrderController.index id).
Proof. unfold HelpOrderController.index. wp_tac. all: typed_leaf. Qed.

Lemma help_order_store_typed id b : typed_handler (HelpOrderController.store id b).
Proof. unfold HelpOrderController.store. wp_tac. all: typed_leaf; row_ok. Qed.

Lemma unanswered_typed : typed_handler HelpOrderController.unanswerdQuestions.
Proof. unfold HelpOrderController.unanswerdQuestions. wp_tac. all: typed_leaf. Qed.

Lemma answer_typed id b now : typed_handler (HelpOrderController.answer id b now).
Proof.
  unfold HelpOrderController.answer, HelpOrderController.save_unawaited.
  wp_tac. all: typed_leaf; row_ok.
Qed.
