(* ===== verification/App.v ===== *)
(** * App: the routes of the application and its reachable states

    The router ([src/routes.js] is not under [src/] of this repository; the
    routes are those of the spec's HTTP table) sends each request to one
    handler.  [serve] runs the handler and keeps the new state; [reachable]
    is every state a sequence of requests served one at a time, at
    non-decreasing instants, can reach from a database without check-ins
    and help orders.  The theorem [app_invariants] transfers the
    controllers' invariants to the whole application: the other
    controllers' handlers never touch the check-in table nor the help
    orders, which the frame lemmas here prove handler by handler.  An
    initial database is also typed ([Typing.db_typed]); [app_typed] shows
    every reachable state is, from the handler-by-handler lemmas of
    [Typing]. *)

From S2P Require Import Prelude Dates Json Store Checkin Plan Enrollment HelpOrder Typing.
From Stdlib Require Import QArith.

#[local] Open Scope Z_scope.

Inductive request :=
| GetCheckins (id : string)
| PostCheckin (id : string)
| GetEnrollments
| PostEnrollment (b : body)
| PutEnrollment (id : string) (b : body)
| DeleteEnrollment (id : string)
| GetHelpOrders (id : string)
| PostHelpOrder (id : string) (b : body)
| GetUnanswered
| PutAnswer (id : string) (b : body)
| GetPlans
| PostPlan (b : body)
| PutPlan (id : string) (b : body)
| DeletePlan (id : string).

(** The state after serving [r] at instant [now]. *)
Definition serve (r : request) (now : Z) (s : db) : db :=
  match r with
  | GetCheckins id => snd (run (CheckinController.index id) s)
  | PostCheckin id => snd (run (CheckinController.store id now) s)
  | GetEnrollments => snd (run EnrollmentController.index s)
  | PostEnrollment b => snd (run (EnrollmentController.store b) s)
  | PutEnrollment id b => snd (run (EnrollmentController.update id b) s)
  | DeleteEnrollment id => snd (run (EnrollmentController.delete id) s)
  | GetHelpOrders id => snd (run (HelpOrderController.index id) s)
  | PostHelpOrder id b => snd (run (HelpOrderController.store id b) s)
  | GetUnanswered => snd (run HelpOrderController.unanswerdQuestions s)
  | PutAnswer id b => snd (run (HelpOrderController.answer id b now) s)
  | GetPlans => snd (run PlanController.index s)
  | PostPlan b => snd (run (PlanController.store b) s)
  | PutPlan id b => snd (run (PlanController.update id b) s)
  | DeletePlan id => snd (run (PlanController.delete id) s)
  end.

Inductive reachable : Z -> db -> Prop :=
| reach_init t s :
    rows (checkins s) = ∅ -> serial (checkins s) = 0 -> rows (help_orders s) = ∅ ->
    db_typed s -> reachable t s
| reach_serve t s r now : reachable t s -> t <= now -> reachable now (serve r now s).

(** A step of a handler leaves a table alone when it reads or writes
    another one. *)
Ltac frame_leaf :=
  first
    [ rewrite (readonly_state _ _ (findByPk_readonly _ _)); reflexivity
    | unfold create, create_at, update_row, destroy_row, attempt, respond, gets, modify,
        mret, handler_ret;
      simpl; repeat case_match; simpl; reflexivity ].

Definition same_checkins (s s' : db) : Prop := checkins s' = checkins s.
Definition same_help_orders (s s' : db) : Prop := rows (help_orders s') = rows (help_orders s).

#[local] Instance same_checkins_trans : Transitive same_checkins.
Proof. intros ???; unfold same_checkins; congruence. Qed.
#[local] Instance same_help_orders_trans : Transitive same_help_orders.
Proof. intros ???; unfold same_help_orders; congruence. Qed.

Lemma serve_checkins_frame r now s :
  (forall id, r <> PostCheckin id) -> checkins (serve r now s) = checkins s.
Proof.
  intros Hr. destruct r; cbn [serve]; [| by destruct (Hr id) | ..]; apply (run_keeps same_checkins);
    unfold CheckinController.index, EnrollmentController.index, EnrollmentController.store,
      EnrollmentController.update, EnrollmentController.delete, EnrollmentController.enrollment_row,
      HelpOrderController.index, HelpOrderController.store, HelpOrderController.unanswerdQuestions,
      HelpOrderController.answer, HelpOrderController.save_unawaited, PlanController.index,
      PlanController.store, PlanController.update, PlanController.delete;
    keeps_tac frame_leaf.
Qed.

Lemma serve_help_orders_frame r now s :
  (forall id b, r <> PostHelpOrder id b) -> (forall id b, r <> PutAnswer id b) ->
  rows (help_orders (serve r now s)) = rows (help_orders s).
Proof.
  intros Hr1 Hr2. destruct r; cbn [serve];
    try (exfalso; by eapply Hr1); try (exfalso; by eapply Hr2);
    apply (run_keeps same_help_orders);
    unfold CheckinController.index, CheckinController.store, CheckinController.store_check,
      CheckinController.store_commit, EnrollmentController.index, EnrollmentController.store,
      EnrollmentController.update, EnrollmentController.delete, EnrollmentController.enrollment_row,
      HelpOrderController.index, HelpOrderController.unanswerdQuestions, PlanController.index,
      PlanController.store, PlanController.update, PlanController.delete;
    keeps_tac frame_leaf.
Qed.

Lemma reachable_checkins t s : reachable t s -> CheckinController.reachable t s.
Proof.
  induction 1 as [t s Hc Hs Hh Ht|t s r now _ IH Hle].
  - by apply CheckinController.reach_init.
  - destruct r;
      try (cbn [serve]; by eapply CheckinController.reach_index);
      try (cbn [serve]; by eapply CheckinController.reach_store);
      (eapply CheckinController.reach_other; [exact IH | exact Hle |]);
      apply (serve_checkins_frame _ now); done.
Qed.

Lemma reachable_help_orders t s : reachable t s -> HelpOrderController.reachable s.
Proof.
  induction 1 as [t s Hc Hs Hh Ht|t s r now _ IH Hle].
  - by apply HelpOrderController.reach_init.
  - destruct r;
      try (cbn [serve]; by apply HelpOrderController.reach_store);
      try (cbn [serve]; by apply HelpOrderController.reach_answer);
      (eapply HelpOrderController.reach_other; [exact IH |]);
      apply (serve_help_orders_frame _ now); done.
Qed.

(** The help-order sample (one student, nothing else) is a typed
    initial database. *)
Lemma sample_db_reachable t : reachable t HelpOrderController.sample_db.
Proof.
  apply reach_init; [done..|].
  apply (bool_decide_unpack _ (dec := db_typed_dec _)). vm_compute. exact I.
Qed.

(** C1. The whole application, any sequence of requests to any route
    served one at a time in time order: no student has more than five
    check-ins in any closed one-week window, every help order has its
    answer and answer time both set or both null, and the check-in
    table's keys stay below its sequence. *)
Theorem app_invariants t s :
  reachable t s ->
  CheckinController.quota_ok (checkins s) /\
  HelpOrderController.consistent (help_orders s) /\ tbl_wf (checkins s).
Proof.
  intros H. destruct (CheckinController.reachable_inv t s (reachable_checkins t s H))
    as (Hwf & Hq & _).
  split_and!; [exact Hq | apply HelpOrderController.reachable_consistent;
                          exact (reachable_help_orders t s H) | exact Hwf].
Qed.

(** [app_invariants] after a question, its answer and a check-in, served
    at instants 5, 6 and 7 from the sample database. *)
Lemma app_invariants_witness :
  let s := serve (PostCheckin "1") 7
             (serve (PutAnswer "1" (HelpOrderController.answer_body (JStr "Yes"))) 6
               (serve (PostHelpOrder "1" HelpOrderController.question_body) 5
                 HelpOrderController.sample_db)) in
  CheckinController.quota_ok (checkins s) /\
  HelpOrderController.consistent (help_orders s) /\ tbl_wf (checkins s).
Proof.
  intros s. apply (app_invariants 7). subst s.
  apply (reach_serve 6); [|lia]. apply (reach_serve 5); [|lia].
  apply (reach_serve 0); [|lia]. apply sample_db_reachable.
Defined.

(** Serving any request keeps the database typed. *)
Lemma serve_typed r now s : db_typed s -> db_typed (serve r now s).
Proof.
  intros H. destruct r; cbn [serve]; apply wp_run; revert s H;
    first [ apply checkin_index_typed | apply checkin_store_typed | apply enrollment_index_typed
          | apply enrollment_store_typed | apply enrollment_update_typed
          | apply enrollment_delete_typed | apply help_order_index_typed
          | apply help_order_store_typed | apply unanswered_typed | apply answer_typed
          | apply plan_index_typed | apply plan_store_typed | apply plan_update_typed
          | apply plan_delete_typed ].
Qed.

(** C9. The column types hold in every state the application reaches
    from a typed database, whatever the requests: every key and
    [integer] column is in the 32-bit range and every key sequence within
    it, every check-in, enrollment and help order names an existing
    student, and every enrollment's start and end dates are calendar
    dates. *)
Theorem app_typed t s : reachable t s -> db_typed s.
Proof. induction 1 as [t s _ _ _ Ht|t s r now _ IH _]; [exact Ht | by apply serve_typed]. Qed.

(** [app_typed] after a question, its answer, a plan and an enrollment,
    served from the sample database. *)
Lemma app_typed_witness :
  let s := serve (PostEnrollment (<["student_id" := JNum (inject_Z 1)]> (<["plan_id" := JNum (inject_Z 1)]>
                                   (<["start_date" := JStr "2023-01-31"]> ∅)))) 9
             (serve (PostPlan (PlanController.plan_body "Gold" 3 (inject_Z 100))) 8
               (serve (PutAnswer "1" (HelpOrderController.answer_body (JStr "Yes"))) 6
                 (serve (PostHelpOrder "1" HelpOrderController.question_body) 5
                   HelpOrderController.sample_db))) in
  db_typed s.
Proof.
  intros s. apply (app_typed 9). subst s.
  apply (reach_serve 8); [|lia]. apply (reach_serve 6); [|lia]. apply (reach_serve 5); [|lia].
  apply (reach_serve 0); [|lia]. apply sample_db_reachable.
Defined.

(** C11. Plans and enrollments together break the spec's calendar: the
    plan schema accepts a negative duration and the enrollment rule adds
    it as it is, so a sequence of two accepted requests stores an
    enrollment that ends before it starts. *)
Theorem enrollment_can_end_before_start :
  exists t s k e, reachable t s /\ rows (enrollments s) !! k = Some e /\
    date_lt (enr_end_date e) (enr_start_date e).
Proof.
  set (s0 := HelpOrderController.sample_db).
  set (s1 := serve (PostPlan (PlanController.plan_body "Back" (-1) (inject_Z 100))) 1 s0).
  set (b := <["student_id" := JNum (inject_Z 1)]> (<["plan_id" := JNum (inject_Z 1)]>
              (<["start_date" := JStr "2023-03-31"]> ∅)) : body).
  exists 2, (serve (PostEnrollment b) 2 s1), 1,
    (Enrollment 1 1 (mkDate 2023 3 31) (mkDate 2023 2 28) (-100)).
  split_and!.
  - apply (reach_serve 1); [|lia]. apply (reach_serve 0); [|lia]. apply sample_db_reachable.
  - vm_compute. reflexivity.
  - vm_compute. left. reflexivity.
Qed.
